(** * BanyanGIS v1.3: the document/view state machine

    A shallow embedding of [BanyanGIS_v1.3.py]: the main window's state
    (the held GeoDataFrame, the matplotlib figure, the canvas, the five
    gated menu actions), the command handlers of class [Operations], and
    the label-visibility callback.

    Conventions.
    - Python floats are IEEE binary64 numbers: Rocq's primitive [float].
    - A Python [str] is a Rocq [string] read as a sequence of code points
      below 256.
    - The handlers run in a state-and-exception monad over the window:
      a raised exception keeps every mutation made before it, as in Python.
    - Every call that leaves the program (Qt message boxes and dialogs,
      [QAction.setEnabled], matplotlib's figure and canvas, geopandas,
      rasterio) is appended to the window's [calls] log, oldest first.
    - The answers of the libraries are taken from a record of collaborators;
      the answers of the user (dialog results) are arguments of the
      handlers. *)

From Stdlib Require Import Floats.
From stdpp Require Import gmap strings list pretty.

(** ** Python values *)

(** An exception object: the class (as far as an [except] clause of the
    program tells classes apart) and [str(e)]. *)
Inductive exn_class := OSError | ValueError | AttributeError | KeyError
                     | IndexError | OtherException.

Record exn := Exn { exn_cls : exn_class; exn_str : string }.

(** [isinstance(e, IOError)]: [IOError] is an alias of [OSError]. *)
Definition is_IOError (e : exn) : bool :=
  match exn_cls e with OSError => true | _ => false end.

Inductive outcome (A : Type) :=
| Ret (a : A)
| Raise (e : exn).
Arguments Ret {A} a.
Arguments Raise {A} e.

(** [s.endswith(suffix)] *)
Definition endswith (s suffix : string) : bool :=
  let n := String.length s in
  let k := String.length suffix in
  (k <=? n)%nat && String.eqb (String.substring (n - k) k s) suffix.

(** [s.endswith((a, b))] *)
Definition endswith_any (s : string) (suffixes : list string) : bool :=
  existsb (endswith s) suffixes.

Definition chars (s : string) : list Ascii.ascii := String.list_ascii_of_string s.

(** The decimal digits 0-9. *)
Definition is_decimal_char (c : Ascii.ascii) : bool :=
  let n := Ascii.N_of_ascii c in ((48 <=? n) && (n <=? 57))%N.

(** [c.isdigit()] for a code point below 256: the decimal digits and the
    three superscript digits U+00B2, U+00B3, U+00B9. *)
Definition is_digit_char (c : Ascii.ascii) : bool :=
  let n := Ascii.N_of_ascii c in
  is_decimal_char c || (n =? 178)%N || (n =? 179)%N || (n =? 185)%N.

(** [s.isdigit()]: every character is a digit and there is at least one. *)
Definition isdigit (s : string) : bool :=
  match chars s with
  | [] => false
  | cs => forallb is_digit_char cs
  end.

Definition digit_value (c : Ascii.ascii) : N := (Ascii.N_of_ascii c - 48)%N.

(** [sys.get_int_max_str_digits()]: the interpreter's default cap on the
    number of digit characters of a decimal numeral (the program never
    changes it). *)
Definition int_max_str_digits : nat := 4300.

(** [int(s)] for a string that passed [isdigit]: the superscript digits are
    digits but not decimal characters, so [int] raises [ValueError] on
    them; it raises [ValueError] too on a numeral of more digit characters
    (leading zeros counted) than [int_max_str_digits].  Below the cap
    Python integers are unbounded. *)
Definition py_int (s : string) : outcome N :=
  let cs := chars s in
  if forallb is_decimal_char cs && negb (bool_decide (cs = [])) then
    if (length cs <=? int_max_str_digits)%nat then
      Ret (fold_left (fun acc c => (10 * acc + digit_value c)%N) cs 0%N)
    else
      Raise (Exn ValueError
               ("Exceeds the limit (4300 digits) for integer string conversion: value has "
                +:+ pretty (length cs)
                +:+ " digits; use sys.set_int_max_str_digits() to increase the limit"))
  else
    Raise (Exn ValueError ("invalid literal for int() with base 10: '" +:+ s +:+ "'")).

(** ** Data model *)

Record Point := mkPoint { pt_x : float; pt_y : float }.

(** A shapely geometry, as far as the program looks at it: its text form
    and its centroid.  [geom_centroid = None] is a geometry whose centroid
    is the empty point: reading [.x] of it raises. *)
Record Geometry := mkGeometry {
  geom_wkt : string;
  geom_centroid : option Point
}.

(** A cell of the data frame. *)
Inductive Value :=
| VNone
| VInt (z : Z)
| VFloat (f : float)
| VStr (s : string)
| VGeom (g : Geometry).

(** A GeoDataFrame: the column labels (the geometry column is one of them),
    the rows in order, the CRS ([crs.to_string()] when one is set) and
    [total_bounds] as (minx, miny, maxx, maxy). *)
Record Dataset := mkDataset {
  columns : list string;
  rows : list (list Value);
  crs : option string;
  total_bounds : float * float * float * float
}.

(** [len(gdf)] and the rectangular shape every pandas frame has. *)
Definition len (d : Dataset) : nat := length (rows d).

Definition rectangular (d : Dataset) : Prop :=
  Forall (fun r => length r = length (columns d)) (rows d).

(** A rasterio bounding box. *)
Record BoundingBox := mkBBox {
  bb_left : float; bb_bottom : float; bb_right : float; bb_top : float
}.

(** The visible window of an axes: [get_xlim()] and [get_ylim()]. *)
Record ViewRectangle := mkView {
  x_min : float; x_max : float; y_min : float; y_max : float
}.

(** A label: the centroid it was placed at, kept by the closure's [labels]
    list, and the matplotlib [Text] artist (its text and its visibility).
    Every [ax.text] call makes a new artist, which is on the axes and in
    [labels] at once, so one list stands for both. *)
Record LabelAnchor := mkLabel {
  la_centroid : Point;
  la_text : string;
  la_visible : bool
}.

(** The subplot of the figure. *)
Record Axes := mkAxes {
  ax_plotted : option Dataset;
  ax_view : ViewRectangle;
  ax_labels : list LabelAnchor;
  ax_listening : bool
}.

(** The five gated actions of the Operations menu, [true] = enabled. *)
Record Menus := mkMenus {
  attr_table_action : bool;
  projection_action : bool;
  switch_proj_action : bool;
  clip_action : bool;
  label_action : bool
}.

Inductive Action := AttrTable | ProjectionInfo | SwitchProjection | Clip | LabelFeatures.

(** The QTableWidget of the attribute dialog. *)
Record Table := mkTable {
  columnCount : nat;
  rowCount : nat;
  horizontalHeaderLabels : list string;
  items : gmap (nat * nat) string
}.

(** Calls that leave the program. *)
Inductive Event :=
| MsgWarning (title text : string)
| MsgCritical (title text : string)
| MsgInformation (title text : string)
| SetEnabled (a : Action) (b : bool)
| SetWelcomeText (text : string)
| FigureClear
| CanvasDraw
| CallReadFile (path : string)
| CallToCrs (d : Dataset) (epsg : string)
| CallClip (d clip_gdf : Dataset)
| CallRasterOpen (path : string)
| CallCx (d : Dataset) (bbox : BoundingBox)
| CallPlot (d : Dataset)
| ProjectionDialog (text : string)
| AttributeDialog (t : Table).

(** The main window.  [figure] is the figure's subplot ([None] after
    [figure.clear()]); [canvas] is what the program's last [canvas.draw()]
    rendered.  A redraw that a library queues by itself for a later turn of
    the event loop ([draw_idle]) is not a call of the program and is not
    recorded here: [canvas] says what the handlers drew, not what the
    screen shows at every moment. *)
Record MainWindow := mkWindow {
  gdf : option Dataset;
  welcome_label : string;
  figure : option Axes;
  canvas : option Axes;
  menus : Menus;
  calls : list Event
}.

(** The libraries the program calls. *)
Record Collaborators := mkCollaborators {
  (** [gpd.read_file(path)] *)
  read_file : string -> outcome Dataset;
  (** [gdf.to_crs(epsg=code)] *)
  to_crs : Dataset -> string -> outcome Dataset;
  (** [gdf.clip(clip_gdf)] *)
  gdf_clip : Dataset -> Dataset -> outcome Dataset;
  (** [import rasterio], [rasterio.open(path)] and [src.bounds] *)
  raster_bounds : string -> outcome BoundingBox;
  (** [gdf.cx[left:right, bottom:top]] *)
  gdf_cx : Dataset -> BoundingBox -> outcome Dataset;
  (** [gdf.plot(ax=ax)]: the view limits it leaves on the axes *)
  gdf_plot : Dataset -> outcome ViewRectangle;
  (** [ax.set_xlim(a, b)] and [ax.set_ylim(a, b)]: the limits the axis ends
      with (matplotlib widens identical limits), or the [ValueError] it
      raises on limits that are NaN or infinite *)
  set_lim : float -> float -> outcome (float * float);
  (** the builtin [str] on a cell *)
  py_str : Value -> string
}.

(** ** The state-and-exception monad of the handlers *)

Definition M (A : Type) : Type := MainWindow -> outcome A * MainWindow.

Definition ret {A} (a : A) : M A := fun w => (Ret a, w).

Definition bind {A B} (m : M A) (k : A -> M B) : M B :=
  fun w => match m w with
           | (Ret a, w') => k a w'
           | (Raise e, w') => (Raise e, w')
           end.

Definition raise {A} (e : exn) : M A := fun w => (Raise e, w).

(** [try: body  except Exception as e: handler(e)] *)
Definition try_except {A} (body : M A) (handler : exn -> M A) : M A :=
  fun w => match body w with
           | (Ret a, w') => (Ret a, w')
           | (Raise e, w') => handler e w'
           end.

Definition lift {A} (o : outcome A) : M A := fun w => (o, w).

Definition get : M MainWindow := fun w => (Ret w, w).

Definition modify (f : MainWindow -> MainWindow) : M unit :=
  fun w => (Ret tt, f w).

Notation "x <- m ;; k" := (bind m (fun x => k))
  (at level 100, m at next level, right associativity).
Notation "m ;; k" := (bind m (fun _ => k))
  (at level 100, right associativity).

(** The window a handler leaves behind. *)
Definition exec {A} (m : M A) (w : MainWindow) : MainWindow := snd (m w).

(** ** Primitive effects *)

Definition record_call (e : Event) (w : MainWindow) : MainWindow :=
  mkWindow (gdf w) (welcome_label w) (figure w) (canvas w) (menus w) (calls w ++ [e]).

Definition emit (e : Event) : M unit := modify (record_call e).

Definition set_gdf (g : option Dataset) : M unit :=
  modify (fun w => mkWindow g (welcome_label w) (figure w) (canvas w) (menus w) (calls w)).

Definition set_figure (f : option Axes) : M unit :=
  modify (fun w => mkWindow (gdf w) (welcome_label w) f (canvas w) (menus w) (calls w)).

Definition set_menus (m : Menus) : M unit :=
  modify (fun w => mkWindow (gdf w) (welcome_label w) (figure w) (canvas w) m (calls w)).

(** [welcome_label.setText(text)] *)
Definition setText (text : string) : M unit :=
  modify (fun w => mkWindow (gdf w) text (figure w) (canvas w) (menus w) (calls w)) ;;
  emit (SetWelcomeText text).

(** [figure.clear()] *)
Definition figure_clear : M unit :=
  set_figure None ;; emit FigureClear.

(** [canvas.draw()]: the canvas shows the figure as it is now. *)
Definition canvas_draw : M unit :=
  modify (fun w => mkWindow (gdf w) (welcome_label w) (figure w) (figure w) (menus w) (calls w)) ;;
  emit CanvasDraw.

(** [figure.add_subplot(111)]: fresh axes with matplotlib's default view. *)
Definition default_view : ViewRectangle := mkView 0 1 0 1.

Definition fresh_axes : Axes := mkAxes None default_view [] false.

Definition add_subplot : M unit := set_figure (Some fresh_axes).

(** Operations on the axes [ax] the handler holds: the figure's subplot. *)
Definition modify_axes (f : Axes -> Axes) : M unit :=
  w <- get ;;
  match figure w with
  | Some ax => set_figure (Some (f ax))
  | None => ret tt
  end.

(** [ax.text(x, y, s)]: a new visible text artist, appended to the axes at
    once; the closure's [labels] list gets the pair of it and its centroid. *)
Definition ax_text (c : Point) (s : string) (ax : Axes) : Axes :=
  mkAxes (ax_plotted ax) (ax_view ax) (ax_labels ax ++ [mkLabel c s true]) (ax_listening ax).

(** [ax.callbacks.connect("xlim_changed", ...)] and the same for ylim. *)
Definition connect_callbacks : M unit :=
  modify_axes (fun ax => mkAxes (ax_plotted ax) (ax_view ax) (ax_labels ax) true).

(** ** The label-visibility callback (lines 354-363) *)

(** [x_min <= centroid.x <= x_max and y_min <= centroid.y <= y_max] *)
Definition visible (v : ViewRectangle) (c : Point) : bool :=
  (PrimFloat.leb (x_min v) (pt_x c) && PrimFloat.leb (pt_x c) (x_max v))
  && (PrimFloat.leb (y_min v) (pt_y c) && PrimFloat.leb (pt_y c) (y_max v)).

(** [label.set_visible(visible)] *)
Definition set_visible (b : bool) (l : LabelAnchor) : LabelAnchor :=
  mkLabel (la_centroid l) (la_text l) b.

(** The loop [for centroid, label in labels]. *)
Fixpoint update_labels (v : ViewRectangle) (labels : list LabelAnchor) : list LabelAnchor :=
  match labels with
  | [] => []
  | l :: rest => set_visible (visible v (la_centroid l)) l :: update_labels v rest
  end.

(** [update_label_visibility(event)]: the limits are read from the axes. *)
Definition update_label_visibility (ax : Axes) : Axes :=
  mkAxes (ax_plotted ax) (ax_view ax) (update_labels (ax_view ax) (ax_labels ax)) (ax_listening ax).

(** Pan or zoom by the toolbar: the limits change and the connected
    callbacks run.  Matplotlib notifies for x and for y in turn; the
    callback recomputes every flag from the limits it reads, so the last
    run, which sees both new limits, decides. *)
Definition view_changed (v : ViewRectangle) (ax : Axes) : Axes :=
  let ax' := mkAxes (ax_plotted ax) v (ax_labels ax) (ax_listening ax) in
  if ax_listening ax' then update_label_visibility ax' else ax'.

(** ** Reading the data frame *)

(** The position of a column label (the labels of a frame read from a
    file are distinct). *)
Fixpoint index_of (name : string) (cols : list string) : option nat :=
  match cols with
  | [] => None
  | c :: cols' => if String.eqb c name then Some 0 else S <$> index_of name cols'
  end.

(** [row[name]] for a row of [iterrows()]. *)
Definition row_get (d : Dataset) (row : list Value) (name : string) : outcome Value :=
  match index_of name (columns d) with
  | Some j =>
      match row !! j with
      | Some v => Ret v
      | None => Raise (Exn IndexError "index out of bounds")
      end
  | None => Raise (Exn KeyError ("'" +:+ name +:+ "'"))
  end.

(** [gdf.iloc[i, j]] *)
Definition iloc (d : Dataset) (i j : nat) : outcome Value :=
  match rows d !! i with
  | Some row =>
      match row !! j with
      | Some v => Ret v
      | None => Raise (Exn IndexError "single positional indexer is out-of-bounds")
      end
  | None => Raise (Exn IndexError "single positional indexer is out-of-bounds")
  end.

(** [geometry.centroid] followed by [centroid.x] and [centroid.y]. *)
Definition centroid_of (v : Value) : outcome Point :=
  match v with
  | VGeom g =>
      match geom_centroid g with
      | Some p => Ret p
      | None => Raise (Exn OtherException "getX called on empty Point")
      end
  | VNone => Raise (Exn AttributeError "'NoneType' object has no attribute 'centroid'")
  | _ => Raise (Exn AttributeError "object has no attribute 'centroid'")
  end.

(** ** The attribute table (lines 292-299) *)

(** [table.setItem(i, j, QTableWidgetItem(s))]: Qt ignores a cell outside
    the table. *)
Definition setItem (i j : nat) (s : string) (t : Table) : Table :=
  if (i <? rowCount t)%nat && (j <? columnCount t)%nat then
    mkTable (columnCount t) (rowCount t) (horizontalHeaderLabels t) (<[(i, j) := s]> (items t))
  else t.

Section Handlers.

Variable lib : Collaborators.

(** [for j, column in enumerate(gdf.columns)] *)
Fixpoint fill_row (d : Dataset) (i j : nat) (cols : list string) (t : Table) : outcome Table :=
  match cols with
  | [] => Ret t
  | _ :: cols' =>
      match iloc d i j with
      | Ret v => fill_row d i (S j) cols' (setItem i j (py_str lib v) t)
      | Raise e => Raise e
      end
  end.

(** [for i in range(len(gdf))] *)
Fixpoint fill_rows (d : Dataset) (indices : list nat) (t : Table) : outcome Table :=
  match indices with
  | [] => Ret t
  | i :: rest =>
      match fill_row d i 0 (columns d) t with
      | Ret t' => fill_rows d rest t'
      | Raise e => Raise e
      end
  end.

Definition attribute_table (d : Dataset) : outcome Table :=
  fill_rows d (seq 0 (len d))
    (mkTable (length (columns d)) (len d) (columns d) ∅).

(** ** MainWindow (lines 511-527) *)

Definition update_operations_menu_state : M unit :=
  w <- get ;;
  let has_file_opened := bool_decide (gdf w <> None) in
  emit (SetEnabled AttrTable has_file_opened) ;;
  emit (SetEnabled ProjectionInfo has_file_opened) ;;
  emit (SetEnabled SwitchProjection has_file_opened) ;;
  emit (SetEnabled Clip has_file_opened) ;;
  emit (SetEnabled LabelFeatures has_file_opened) ;;
  set_menus (mkMenus has_file_opened has_file_opened has_file_opened
                     has_file_opened has_file_opened).

Definition clear_canvas : M unit :=
  set_gdf None ;;
  figure_clear ;;
  canvas_draw ;;
  update_operations_menu_state.

(** ** ImportFile (lines 78-100) *)

Definition import_shapefile (file_path : string) : M (option (Dataset * string)) :=
  if negb (String.eqb file_path "") then
    try_except
      (emit (CallReadFile file_path) ;;
       g <- lift (read_file lib file_path) ;;
       ret (Some (g, file_path)))
      (fun e =>
         if is_IOError e then
           (emit (MsgCritical "Error" "Error reading the file.") ;; ret None)
         else
           (emit (MsgCritical "Error" ("An unexpected error occurred: " +:+ exn_str e)) ;;
            ret None))
  else ret None.

(** ** Operations (lines 109-377) *)

(** [ax.set_xlim(left, right)] and [ax.set_ylim(bottom, top)] *)
Definition set_xlim (l r : float) : M unit :=
  lim <- lift (set_lim lib l r) ;;
  modify_axes (fun ax =>
    mkAxes (ax_plotted ax) (mkView lim.1 lim.2 (y_min (ax_view ax)) (y_max (ax_view ax)))
           (ax_labels ax) (ax_listening ax)).

Definition set_ylim (b t : float) : M unit :=
  lim <- lift (set_lim lib b t) ;;
  modify_axes (fun ax =>
    mkAxes (ax_plotted ax) (mkView (x_min (ax_view ax)) (x_max (ax_view ax)) lim.1 lim.2)
           (ax_labels ax) (ax_listening ax)).

(** [self.main_window.gdf.plot(ax=ax)]: what is plotted and the view limits
    the plot leaves on the axes.  (geopandas ends a successful plot by
    queueing a redraw of the figure, [draw_idle]; see [canvas].) *)
Definition plot (d : Dataset) : M unit :=
  emit (CallPlot d) ;;
  v <- lift (gdf_plot lib d) ;;
  modify_axes (fun ax => mkAxes (Some d) v (ax_labels ax) (ax_listening ax)).

Definition no_file_warning : M unit :=
  emit (MsgWarning "Warning" "No GIS file is opened.").

Definition display_gis_data : M unit :=
  w <- get ;;
  match gdf w with
  | None => no_file_warning
  | Some d =>
      try_except
        (figure_clear ;;
         add_subplot ;;
         plot d ;;
         let '(minx, miny, maxx, maxy) := total_bounds d in
         set_xlim minx maxx ;;
         set_ylim miny maxy ;;
         canvas_draw)
        (fun e => emit (MsgCritical "Error" ("Failed to display GIS data: " +:+ exn_str e)))
  end.

(** [file_path] is what the file dialog returns: empty when cancelled. *)
Definition open_file (file_path : string) : M unit :=
  r <- import_shapefile file_path ;;
  match r with
  | Some (g, path) =>
      set_gdf (Some g) ;;
      setText ("Opened file: " +:+ path) ;;
      display_gis_data
  | None => clear_canvas
  end ;;
  update_operations_menu_state.

Definition none_has_no_attribute (attr : string) : exn :=
  Exn AttributeError ("'NoneType' object has no attribute '" +:+ attr +:+ "'").

Definition show_projection_info : M unit :=
  try_except
    (w <- get ;;
     projection_info <-
       match gdf w with
       | None => raise (none_has_no_attribute "crs")
       | Some d =>
           ret (match crs d with
                | Some c => c
                | None => "Undefined projection"
                end)
       end ;;
     emit (ProjectionDialog projection_info))
    (fun e => emit (MsgCritical "Error" ("Failed to get projection info: " +:+ exn_str e))).

(** [epsg_code], [ok] are what [QInputDialog.getText] returns. *)
Definition switch_projection (epsg_code : string) (ok : bool) : M unit :=
  try_except
    (if negb ok || negb (isdigit epsg_code) then
       emit (MsgWarning "Warning" "Invalid EPSG code entered.")
     else
       code <- lift (py_int epsg_code) ;;
       w <- get ;;
       d <- match gdf w with
            | None => raise (none_has_no_attribute "to_crs")
            | Some d => ret d
            end ;;
       emit (CallToCrs d (pretty code)) ;;
       d' <- lift (to_crs lib d (pretty code)) ;;
       set_gdf (Some d') ;;
       setText ("Projection switched to EPSG:" +:+ pretty code) ;;
       display_gis_data)
    (fun e => emit (MsgWarning "Error" ("Failed to switch projection: " +:+ exn_str e))).

(** [clip_path] is what the file dialog returns: empty when cancelled. *)
Definition clip_data (clip_path : string) : M unit :=
  w <- get ;;
  match gdf w with
  | None => no_file_warning
  | Some d =>
      if String.eqb clip_path "" then ret tt
      else
        try_except
          ((if endswith_any clip_path [".shp"; ".geojson"] then
              emit (CallReadFile clip_path) ;;
              clip_gdf <- lift (read_file lib clip_path) ;;
              emit (CallClip d clip_gdf) ;;
              d' <- lift (gdf_clip lib d clip_gdf) ;;
              set_gdf (Some d')
            else if endswith_any clip_path [".tif"; ".tiff"] then
              emit (CallRasterOpen clip_path) ;;
              bbox <- lift (raster_bounds lib clip_path) ;;
              emit (CallCx d bbox) ;;
              d' <- lift (gdf_cx lib d bbox) ;;
              set_gdf (Some d')
            else ret tt) ;;
           display_gis_data ;;
           emit (MsgInformation "Clip Data" "Data clipped successfully."))
          (fun e => emit (MsgCritical "Error" ("Failed to clip data: " +:+ exn_str e)))
  end.

Definition show_attribute_table : M unit :=
  w <- get ;;
  match gdf w with
  | None => no_file_warning
  | Some d =>
      table <- lift (attribute_table d) ;;
      emit (AttributeDialog table)
  end.

(** The loop [for idx, row in self.main_window.gdf.iterrows()]. *)
Fixpoint label_rows (d : Dataset) (field : string) (rs : list (list Value)) : M unit :=
  match rs with
  | [] => ret tt
  | row :: rest =>
      geometry <- lift (row_get d row "geometry") ;;
      centroid <- lift (centroid_of geometry) ;;
      value <- lift (row_get d row field) ;;
      modify_axes (ax_text centroid (py_str lib value)) ;;
      label_rows d field rest
  end.

(** [field], [ok] are what [QInputDialog.getItem] returns. *)
Definition label_features (field : string) (ok : bool) : M unit :=
  w <- get ;;
  match gdf w with
  | None => no_file_warning
  | Some d =>
      if ok && negb (String.eqb field "") then
        try_except
          (figure_clear ;;
           add_subplot ;;
           plot d ;;
           label_rows d field (rows d) ;;
           connect_callbacks ;;
           modify_axes update_label_visibility ;;
           canvas_draw)
          (fun e => emit (MsgCritical "Error" ("Failed to display labels: " +:+ exn_str e)))
      else ret tt
  end.

(** [MainWindow.__init__] (lines 464-509): the actions are created enabled,
    then the canvas is cleared and the menu state computed. *)
Definition new_window : MainWindow :=
  mkWindow None "Welcome to the preview version of Banyan GIS" None None
           (mkMenus true true true true true) [].

Definition init : MainWindow :=
  exec (clear_canvas ;; update_operations_menu_state) new_window.

End Handlers.

(** ** CustomNavigationToolbar (lines 438-457) *)

(** A toolbar action: its text and the file its icon was made from. *)
Record ToolAction := mkToolAction { ta_text : string; ta_icon : string }.

(** [self._icon_paths] *)
Definition icon_paths : gmap string string :=
  list_to_map
    [ ("Home", "icons\home.png");
      ("Back", "icons\pfanhui.png");
      ("Forward", "icons\pforward.png");
      ("Pan", "icons\pan.png");
      ("Zoom", "icons\zoom-extent.png");
      ("Subplots", "icons\edit-border.png");
      ("Customize", "icons\edit-text.png");
      ("Save", "icons\save.png") ].

(** [_update_icons]: the loop over [self.actions()]. *)
Fixpoint update_icons (actions : list ToolAction) : list ToolAction :=
  match actions with
  | [] => []
  | action :: rest =>
      match icon_paths !! ta_text action with
      | Some icon_path => mkToolAction (ta_text action) icon_path :: update_icons rest
      | None => action :: update_icons rest
      end
  end.

(** * Specification vocabulary *)

(** [lo <= x <= hi] on floats: membership in the closed interval. *)
Definition in_closed_interval (lo hi x : float) : Prop :=
  PrimFloat.leb lo x = true ∧ PrimFloat.leb x hi = true.

Definition in_view (v : ViewRectangle) (c : Point) : Prop :=
  in_closed_interval (x_min v) (x_max v) (pt_x c)
  ∧ in_closed_interval (y_min v) (y_max v) (pt_y c).

(** The enabled flag of one gated action. *)
Definition enabled (m : Menus) (a : Action) : bool :=
  match a with
  | AttrTable => attr_table_action m
  | ProjectionInfo => projection_action m
  | SwitchProjection => switch_proj_action m
  | Clip => clip_action m
  | LabelFeatures => label_action m
  end.

Definition gated_actions : list Action :=
  [AttrTable; ProjectionInfo; SwitchProjection; Clip; LabelFeatures].

(** The menu state agrees with the holder. *)
Definition menus_agree (w : MainWindow) : Prop :=
  ∀ a, enabled (menus w) a = bool_decide (gdf w ≠ None).

(** The calls a handler added to the log. *)
Definition new_calls (w w' : MainWindow) : list Event :=
  drop (length (calls w)) (calls w').

(** Calls of the rendering path: the figure, the canvas, the plot and the
    message boxes. *)
Definition render_call (e : Event) : Prop :=
  match e with
  | FigureClear | CanvasDraw | CallPlot _ | MsgCritical _ _ | MsgWarning _ _ => True
  | _ => False
  end.

(** Calls to the reprojector. *)
Definition reprojector_call (e : Event) : Prop :=
  match e with CallToCrs _ _ => True | _ => False end.

(** Calls of the vector-intersection clip and of the raster-bounds clip. *)
Definition vector_clip_call (e : Event) : Prop :=
  match e with CallReadFile _ | CallClip _ _ => True | _ => False end.

Definition raster_clip_call (e : Event) : Prop :=
  match e with CallRasterOpen _ | CallCx _ _ => True | _ => False end.

(** Calls to [QAction.setEnabled]. *)
Definition menu_call (e : Event) : Prop :=
  match e with SetEnabled _ _ => True | _ => False end.

(** The window with some more calls on its log. *)
Definition log_calls (es : list Event) (w : MainWindow) : MainWindow :=
  mkWindow (gdf w) (welcome_label w) (figure w) (canvas w) (menus w) (calls w ++ es).

Definition clip_succeeded : Event := MsgInformation "Clip Data" "Data clipped successfully.".

Definition clip_failed (e : exn) : Event :=
  MsgCritical "Error" ("Failed to clip data: " +:+ exn_str e).

(** The commands of the menu bar, as [Menus.create_menus] wires them
    (lines 397-435), each with what the user answers in its dialog. *)
Inductive Command :=
| CmdOpen (file_path : string)
| CmdProjectionInfo
| CmdSwitchProjection (epsg_code : string) (ok : bool)
| CmdClip (clip_path : string)
| CmdAttributeTable
| CmdLabelFeatures (field : string) (ok : bool).

Section Wiring.

Variable lib : Collaborators.

Definition handle (c : Command) : M unit :=
  match c with
  | CmdOpen file_path => open_file lib file_path
  | CmdProjectionInfo => show_projection_info
  | CmdSwitchProjection epsg_code ok => switch_projection lib epsg_code ok
  | CmdClip clip_path => clip_data lib clip_path
  | CmdAttributeTable => show_attribute_table lib
  | CmdLabelFeatures field ok => label_features lib field ok
  end.

(** The two clip strategies, as compositions of the collaborators. *)
Definition vector_clip (d : Dataset) (path : string) : outcome Dataset :=
  match read_file lib path with
  | Ret clip_gdf => gdf_clip lib d clip_gdf
  | Raise e => Raise e
  end.

Definition raster_bounds_clip (d : Dataset) (path : string) : outcome Dataset :=
  match raster_bounds lib path with
  | Ret bbox => gdf_cx lib d bbox
  | Raise e => Raise e
  end.

(** The label of one row: what one turn of the labelling loop computes. *)
Definition row_label (d : Dataset) (field : string) (row : list Value) : outcome LabelAnchor :=
  match row_get d row "geometry" with
  | Ret geometry =>
      match centroid_of geometry with
      | Ret centroid =>
          match row_get d row field with
          | Ret value => Ret (mkLabel centroid (py_str lib value) true)
          | Raise e => Raise e
          end
      | Raise e => Raise e
      end
  | Raise e => Raise e
  end.

(** The labels of a run of rows that all have one. *)
Fixpoint row_labels (d : Dataset) (field : string) (rs : list (list Value))
  : option (list LabelAnchor) :=
  match rs with
  | [] => Some []
  | row :: rest =>
      match row_label d field row, row_labels d field rest with
      | Ret l, Some ls => Some (l :: ls)
      | _, _ => None
      end
  end.

(** The tail of the happy path: re-render, then the success message. *)
Definition finish_clip (w : MainWindow) : MainWindow :=
  record_call clip_succeeded (exec (display_gis_data lib) w).

(** A cell of the table holds the text of the frame's cell. *)
Definition cell_filled (d : Dataset) (t : Table) (i j : nat) : Prop :=
  ∀ row v, rows d !! i = Some row → row !! j = Some v →
           items t !! (i, j) = Some (py_str lib v).

(** No item lies outside the frame. *)
Definition items_within (d : Dataset) (t : Table) : Prop :=
  ∀ i j, is_Some (items t !! (i, j)) → i < len d ∧ j < length (columns d).

End Wiring.

(** The windows the program can be in: the initial window, then one command
    after another.  The libraries are asked anew at every command, so each
    step has collaborators of its own: a file may change on disk, or a call
    that succeeded may fail the next time. *)
Inductive reachable : MainWindow → Prop :=
| reachable_init : reachable init
| reachable_step (lib : Collaborators) (w : MainWindow) (c : Command) :
    reachable w → reachable (exec (handle lib c) w).

(** What a clip leaves in the holder: the result, or the old dataset when
    the strategy failed. *)
Definition result_or (d : Dataset) (o : outcome Dataset) : Dataset :=
  match o with Ret d' => d' | Raise _ => d end.

(** [projection_info] (lines 155-159). *)
Definition projection_text (d : Dataset) : string :=
  match crs d with
  | Some c => c
  | None => "Undefined projection"
  end.

(** The superscript two, U+00B2. *)
Definition superscript_two : string := String (Ascii.ascii_of_nat 178) EmptyString.

(** The figure with more labels on its axes. *)
Definition add_labels (ls : list LabelAnchor) (w : MainWindow) : MainWindow :=
  match figure w with
  | Some ax =>
      mkWindow (gdf w) (welcome_label w)
        (Some (mkAxes (ax_plotted ax) (ax_view ax) (ax_labels ax ++ ls) (ax_listening ax)))
        (canvas w) (menus w) (calls w)
  | None => w
  end.

(** A handler that leaves the menu state alone and keeps the holder
    present or absent as it was. *)
Definition keeps_menu_state (w w' : MainWindow) : Prop :=
  menus w' = menus w
  ∧ (gdf w' = None ↔ gdf w = None)
  ∧ Forall (fun e => ¬ menu_call e) (new_calls w w').

(** Calls to a library that reads, reprojects, clips or plots. *)
Definition library_call (e : Event) : Prop :=
  match e with
  | CallReadFile _ | CallToCrs _ _ | CallClip _ _ | CallRasterOpen _ | CallCx _ _
  | CallPlot _ => True
  | _ => False
  end.

(** Message boxes. *)
Definition message_box (e : Event) : Prop :=
  match e with
  | MsgWarning _ _ | MsgCritical _ _ | MsgInformation _ _ => True
  | _ => False
  end.

(** The number a run of decimal characters denotes, read left to right
    (the loop of [py_int]). *)
Definition read_digits (acc : N) (cs : list Ascii.ascii) : N :=
  fold_left (fun acc c => (10 * acc + digit_value c)%N) cs acc.

(** The figure plots the held dataset or nothing, and an absent holder
    goes with an empty figure and an empty canvas. *)
Definition figure_follows_holder (w : MainWindow) : Prop :=
  (gdf w = None → figure w = None ∧ canvas w = None)
  ∧ (∀ ax d, figure w = Some ax → ax_plotted ax = Some d → gdf w = Some d).

(** The report of a failed rendering. *)
Definition display_failed (e : exn) : Event :=
  MsgCritical "Error" ("Failed to display GIS data: " +:+ exn_str e).

(** The warning of the handlers that need a dataset. *)
Definition no_file_opened : Event := MsgWarning "Warning" "No GIS file is opened.".

(** One command leaves holder, figure and canvas alone, or ends with a
    dataset held and a figure that plots it or nothing, or ends with
    everything empty. *)
Definition step_shape (w w' : MainWindow) : Prop :=
  (gdf w' = gdf w ∧ figure w' = figure w ∧ canvas w' = canvas w)
  ∨ (∃ d' ax, gdf w' = Some d' ∧ figure w' = Some ax
              ∧ (ax_plotted ax = Some d' ∨ ax_plotted ax = None)
              ∧ (ax_listening ax = true →
                 ax_plotted ax = Some d' ∧ length (ax_labels ax) = len d'))
  ∨ (gdf w' = None ∧ figure w' = None ∧ canvas w' = None).

(** A figure with the view listener connected is fully labelled. *)
Definition listener_means_labelled (w : MainWindow) : Prop :=
  ∀ ax, figure w = Some ax → ax_listening ax = true →
        ∃ d, gdf w = Some d ∧ ax_plotted ax = Some d
             ∧ length (ax_labels ax) = len d.

(** The toolbar of matplotlib's Qt backend, with the backend's own icons:
    eight named actions and the separators between them. *)
Definition stock_toolbar : list ToolAction :=
  [ mkToolAction "Home" "home"; mkToolAction "Back" "back";
    mkToolAction "Forward" "forward"; mkToolAction "" "";
    mkToolAction "Pan" "move"; mkToolAction "Zoom" "zoom_to_rect";
    mkToolAction "Subplots" "subplots"; mkToolAction "Customize" "qt4_editor_options";
    mkToolAction "" ""; mkToolAction "Save" "filesave" ].

(** ** Sample data *)

Definition point_geometry (wkt : string) (x y : float) : Geometry :=
  mkGeometry wkt (Some (mkPoint x y)).

(** Three cities in geographic coordinates. *)
Definition cities : Dataset :=
  mkDataset ["name"; "pop"; "geometry"]
    [ [VStr "A"; VInt 120; VGeom (point_geometry "POINT (1 1)" 1 1)];
      [VStr "B"; VInt 45; VGeom (point_geometry "POINT (5 5)" 5 5)];
      [VStr "C"; VInt 7; VGeom (point_geometry "POINT (9 2)" 9 2)] ]
    (Some "EPSG:4326") (1, 1, 9, 5)%float.

(** The same cities after a reprojection (coordinates scaled). *)
Definition cities_3857 : Dataset :=
  mkDataset ["name"; "pop"; "geometry"]
    [ [VStr "A"; VInt 120; VGeom (point_geometry "POINT (111319 111325)" 111319 111325)];
      [VStr "B"; VInt 45; VGeom (point_geometry "POINT (556597 557305)" 556597 557305)];
      [VStr "C"; VInt 7; VGeom (point_geometry "POINT (1001875 222684)" 1001875 222684)] ]
    (Some "EPSG:3857") (111319, 111325, 1001875, 557305)%float.

(** The cities inside the clip mask. *)
Definition cities_clipped : Dataset :=
  mkDataset ["name"; "pop"; "geometry"]
    [ [VStr "B"; VInt 45; VGeom (point_geometry "POINT (5 5)" 5 5)];
      [VStr "C"; VInt 7; VGeom (point_geometry "POINT (9 2)" 9 2)] ]
    (Some "EPSG:4326") (5, 2, 9, 5)%float.

(** A file whose second feature has no geometry. *)
Definition gaps : Dataset :=
  mkDataset ["name"; "geometry"]
    [ [VStr "A"; VGeom (point_geometry "POINT (1 1)" 1 1)];
      [VStr "B"; VNone];
      [VStr "C"; VGeom (point_geometry "POINT (9 2)" 9 2)] ]
    None (1, 1, 9, 2)%float.

Definition mask : Dataset :=
  mkDataset ["geometry"]
    [ [VGeom (point_geometry "POLYGON ((4 1, 10 1, 10 6, 4 6, 4 1))" 7 3.5)] ]
    (Some "EPSG:4326") (4, 1, 10, 6)%float.

Definition same_frame (d d' : Dataset) : bool :=
  bool_decide (columns d = columns d') && (length (rows d) =? length (rows d'))%nat.

(** A small library over the sample files.  Its [str] is Python's on the
    cells of the sample data, which has no float cell. *)
Definition sample_lib : Collaborators :=
  {| read_file path :=
       if String.eqb path "cities.shp" then Ret cities
       else if String.eqb path "gaps.shp" then Ret gaps
       else if String.eqb path "mask.shp" then Ret mask
       else if String.eqb path "locked.shp" then Raise (Exn OSError "Permission denied")
       else Raise (Exn OtherException ("Failed to open dataset: " +:+ path));
     to_crs d code :=
       if String.eqb code "3857" && same_frame d cities then Ret cities_3857
       else Raise (Exn OtherException ("Invalid projection: EPSG:" +:+ code));
     gdf_clip d clip_gdf :=
       if same_frame d cities && same_frame clip_gdf mask then Ret cities_clipped
       else Raise (Exn OtherException "clip failed");
     raster_bounds path :=
       if String.eqb path "dem.tif" then Ret (mkBBox 4 1 10 6)
       else Raise (Exn OSError ("No such file: " +:+ path));
     gdf_cx d bbox :=
       if same_frame d cities then Ret cities_clipped
       else Raise (Exn OtherException "cx failed");
     gdf_plot d :=
       let '(minx, miny, maxx, maxy) := total_bounds d in
       Ret (mkView minx maxx miny maxy);
     set_lim a b :=
       if PrimFloat.is_finite a && PrimFloat.is_finite b then Ret (a, b)
       else Raise (Exn ValueError "Axis limits cannot be NaN or Inf");
     py_str v :=
       match v with
       | VNone => "None"
       | VInt z => pretty z
       | VFloat _ => "nan"
       | VStr s => s
       | VGeom g => geom_wkt g
       end |}.

(** A library whose plot always fails. *)
Definition no_plot_lib : Collaborators :=
  mkCollaborators (read_file sample_lib) (to_crs sample_lib) (gdf_clip sample_lib)
    (raster_bounds sample_lib) (gdf_cx sample_lib)
    (fun _ => Raise (Exn OtherException "no artists to plot"))
    (set_lim sample_lib) (py_str sample_lib).

(** The same library after the sample files were removed from the disk. *)
Definition offline_lib : Collaborators :=
  mkCollaborators (fun path => Raise (Exn OSError ("No such file: " +:+ path)))
    (to_crs sample_lib) (gdf_clip sample_lib)
    (raster_bounds sample_lib) (gdf_cx sample_lib) (gdf_plot sample_lib)
    (set_lim sample_lib) (py_str sample_lib).

(** The log of [MainWindow.__init__]: [clear_canvas] computes the menu
    state, and [__init__] computes it again. *)
Definition init_calls : list Event :=
  [FigureClear; CanvasDraw]
  ++ ((fun a => SetEnabled a false) <$> gated_actions)
  ++ ((fun a => SetEnabled a false) <$> gated_actions).

(** The axes [display_gis_data] draws for a dataset with finite bounds. *)
Definition shown (d : Dataset) : Axes :=
  let '(minx, miny, maxx, maxy) := total_bounds d in
  mkAxes (Some d) (mkView minx maxx miny maxy) [] false.

Definition opened (d : Dataset) (path : string) : MainWindow :=
  mkWindow (Some d) ("Opened file: " +:+ path) (Some (shown d)) (Some (shown d))
    (mkMenus true true true true true)
    (init_calls
     ++ [CallReadFile path; SetWelcomeText ("Opened file: " +:+ path);
         FigureClear; CallPlot d; CanvasDraw]
     ++ ((fun a => SetEnabled a true) <$> gated_actions)).

(** The window after [cities.shp] was opened. *)
Definition cities_window : MainWindow := Eval vm_compute in opened cities "cities.shp".

(** The window after [gaps.shp] was opened. *)
Definition gaps_window : MainWindow := Eval vm_compute in opened gaps "gaps.shp".

(** Three anchors under the view [0,10] x [0,10]: one on the corner
    (10, 0) of the view, one inside, one outside. *)
Definition corner_anchor : LabelAnchor := mkLabel (mkPoint 10 0) "A" false.
Definition inner_anchor : LabelAnchor := mkLabel (mkPoint 2.5 7) "B" false.
Definition outer_anchor : LabelAnchor := mkLabel (mkPoint 10.5 3) "C" true.

Definition culler_axes : Axes :=
  mkAxes None (mkView 0 10 0 10) [corner_anchor; inner_anchor; outer_anchor] true.

(** ** Proof tools *)

Arguments display_gis_data : simpl never.

Ltac unfold_m :=
  cbv [bind ret raise try_except lift get modify emit set_gdf set_figure set_menus
       setText figure_clear canvas_draw add_subplot modify_axes connect_callbacks
       record_call exec no_file_warning
       gdf welcome_label figure canvas menus calls fst snd];
  cbn.

Ltac log_shape :=
  cbn; rewrite <- ?app_assoc; cbn; try reflexivity.

Ltac only_calls :=
  repeat first [ apply Forall_nil_2 | apply Forall_cons_2; [exact I|] ].

(** * Properties *)

(** The sample windows are what the program reaches by opening the files. *)
Lemma sample_windows_reached :
  exec (open_file sample_lib "cities.shp") init = cities_window
  ∧ exec (open_file sample_lib "gaps.shp") init = gaps_window.
Proof. split; vm_compute; reflexivity. Qed.

(** ** The viewport culler *)

Lemma visible_in_view (v : ViewRectangle) (c : Point) :
  visible v c = true ↔ in_view v c.
Proof.
  unfold visible, in_view, in_closed_interval.
  rewrite !andb_true_iff. tauto.
Qed.

Lemma update_labels_length (v : ViewRectangle) (labels : list LabelAnchor) :
  length (update_labels v labels) = length labels.
Proof. induction labels as [|l rest IH]; simpl; congruence. Qed.

Lemma update_labels_lookup (v : ViewRectangle) (labels : list LabelAnchor) (i : nat) :
  update_labels v labels !! i
  = (fun l => set_visible (visible v (la_centroid l)) l) <$> labels !! i.
Proof.
  revert i. induction labels as [|l rest IH]; intros [|i]; simpl; auto.
Qed.

(** [<=] is reflexive on every float but NaN, so the ends of an interval
    belong to it. *)
Lemma leb_refl (x : float) : PrimFloat.is_nan x = false → PrimFloat.leb x x = true.
Proof.
  unfold PrimFloat.is_nan. rewrite negb_false_iff.
  rewrite FloatAxioms.eqb_spec, FloatAxioms.leb_spec.
  unfold SFeqb, SFleb.
  destruct (SFcompare (Prim2SF x) (Prim2SF x)) as [[]|]; done.
Qed.

Lemma interval_ends (lo hi : float) :
  PrimFloat.is_nan lo = false → PrimFloat.is_nan hi = false →
  PrimFloat.leb lo hi = true →
  in_closed_interval lo hi lo ∧ in_closed_interval lo hi hi.
Proof.
  intros Hlo Hhi Hle. unfold in_closed_interval.
  rewrite !leb_refl by assumption. auto.
Qed.

(** The four corners of a view that is not empty are visible. *)
Lemma corners_visible (v : ViewRectangle) :
  PrimFloat.is_nan (x_min v) = false → PrimFloat.is_nan (x_max v) = false →
  PrimFloat.is_nan (y_min v) = false → PrimFloat.is_nan (y_max v) = false →
  PrimFloat.leb (x_min v) (x_max v) = true → PrimFloat.leb (y_min v) (y_max v) = true →
  visible v (mkPoint (x_min v) (y_min v)) = true
  ∧ visible v (mkPoint (x_min v) (y_max v)) = true
  ∧ visible v (mkPoint (x_max v) (y_min v)) = true
  ∧ visible v (mkPoint (x_max v) (y_max v)) = true.
Proof.
  intros Hx0 Hx1 Hy0 Hy1 Hx Hy.
  destruct (interval_ends _ _ Hx0 Hx1 Hx) as [Hxa Hxb].
  destruct (interval_ends _ _ Hy0 Hy1 Hy) as [Hya Hyb].
  repeat split; apply visible_in_view; split; assumption.
Qed.

(** C2.  After [update_label_visibility] every anchor keeps its place, its
    centroid and its text, and it is marked visible exactly when its
    centroid has x in [x_min, x_max] and y in [y_min, y_max] of the axes'
    current limits, the comparisons being [<=], so boundary points count. *)
Theorem update_label_visibility_closed_rectangle
    (ax : Axes) (i : nat) (l : LabelAnchor)
    (Hl : ax_labels ax !! i = Some l) :
  length (ax_labels (update_label_visibility ax)) = length (ax_labels ax)
  ∧ ∃ l', ax_labels (update_label_visibility ax) !! i = Some l'
      ∧ la_centroid l' = la_centroid l
      ∧ la_text l' = la_text l
      ∧ (la_visible l' = true ↔
           in_closed_interval (x_min (ax_view ax)) (x_max (ax_view ax)) (pt_x (la_centroid l))
           ∧ in_closed_interval (y_min (ax_view ax)) (y_max (ax_view ax)) (pt_y (la_centroid l))).
Proof.
  split.
  - apply update_labels_length.
  - exists (set_visible (visible (ax_view ax) (la_centroid l)) l).
    cbn [update_label_visibility ax_labels].
    rewrite update_labels_lookup, Hl. cbn.
    repeat split; try apply visible_in_view; auto.
Qed.

Lemma update_label_visibility_closed_rectangle_witness :
  culler_axes.(ax_labels) !! 0%nat = Some corner_anchor
  ∧ ax_labels (update_label_visibility culler_axes)
    = [mkLabel (mkPoint 10 0) "A" true; mkLabel (mkPoint 2.5 7) "B" true;
       mkLabel (mkPoint 10.5 3) "C" false]
  ∧ ∃ l', ax_labels (update_label_visibility culler_axes) !! 0%nat = Some l'
      ∧ (la_visible l' = true ↔
           in_closed_interval 0 10 (pt_x (la_centroid corner_anchor))
           ∧ in_closed_interval 0 10 (pt_y (la_centroid corner_anchor))).
Proof.
  split; [reflexivity|]. split; [vm_compute; reflexivity|].
  destruct (update_label_visibility_closed_rectangle culler_axes 0 corner_anchor eq_refl)
    as [_ [l' [H1 [_ [_ H4]]]]].
  exists l'. split; [exact H1 | exact H4].
Defined.

(** The callback is idempotent: a view notification that changes nothing
    changes no label. *)
Lemma update_label_visibility_idempotent (ax : Axes) :
  update_label_visibility (update_label_visibility ax) = update_label_visibility ax.
Proof.
  destruct ax as [p v ls b]. unfold update_label_visibility. cbn. f_equal.
  induction ls as [|l ls IH]; cbn; [reflexivity|]. by rewrite IH.
Qed.

(** ** Command enablement *)

(** C3.  [update_operations_menu_state] calls [setEnabled] once on each of
    the five gated actions with the same flag; afterwards every one of them
    is enabled exactly when a dataset is held, and disabled when the holder
    is absent.  The holder itself is not touched. *)
Theorem update_operations_menu_state_enablement (w : MainWindow) :
  let w' := exec update_operations_menu_state w in
  (∀ a, enabled (menus w') a = true ↔ is_Some (gdf w))
  ∧ (∀ a, enabled (menus w') a = false ↔ gdf w = None)
  ∧ gdf w' = gdf w
  ∧ new_calls w w' = (fun a => SetEnabled a (bool_decide (gdf w ≠ None))) <$> gated_actions.
Proof.
  destruct w as [g wl f c m cs]. cbn.
  repeat split; try (unfold new_calls; cbn; rewrite <- !app_assoc; apply drop_app_length);
    destruct g, a; cbn; intros; try done; try (by eexists).
  all: by destruct H.
Qed.

Lemma update_operations_menu_state_run (w : MainWindow) :
  update_operations_menu_state w
  = (Ret tt,
     mkWindow (gdf w) (welcome_label w) (figure w) (canvas w)
       (let b := bool_decide (gdf w ≠ None) in mkMenus b b b b b)
       (calls w ++ ((fun a => SetEnabled a (bool_decide (gdf w ≠ None))) <$> gated_actions))).
Proof. destruct w. unfold update_operations_menu_state. unfold_m. rewrite <- !app_assoc. reflexivity. Qed.

Lemma menus_agree_after_update (w : MainWindow) :
  menus_agree (exec update_operations_menu_state w).
Proof.
  unfold exec. rewrite update_operations_menu_state_run. intros []; reflexivity.
Qed.

(** ** Rendering and clearing *)

Section Facts.

Variable lib : Collaborators.

(** [display_gis_data] catches what it raises; it touches the figure, the
    canvas and the log only. *)
Lemma display_gis_data_returns (w : MainWindow) :
  ∃ w', display_gis_data lib w = (Ret tt, w')
    ∧ gdf w' = gdf w ∧ welcome_label w' = welcome_label w ∧ menus w' = menus w
    ∧ ∃ es, calls w' = calls w ++ es ∧ Forall render_call es.
Proof.
  destruct w as [g wl f c m cs]. unfold display_gis_data, plot, set_xlim, set_ylim.
  unfold_m. destruct g as [d|]; cbn.
  - destruct (gdf_plot lib d) as [v|e]; cbn.
    + destruct (total_bounds d) as [[[minx miny] maxx] maxy].
      destruct (set_lim lib minx maxx) as [xlim|e]; cbn;
        [destruct (set_lim lib miny maxy) as [ylim|e]; cbn|];
        (eexists; split; [reflexivity|]; cbn; repeat split;
         eexists; split; [log_shape | only_calls]).
    + eexists; split; [reflexivity|]; cbn; repeat split.
      eexists; split; [log_shape | only_calls].
  - eexists; split; [reflexivity|]; cbn; repeat split.
    eexists; split; [log_shape | only_calls].
Qed.

(** With a dataset held, [display_gis_data] starts by clearing the figure
    and plotting the dataset; when the plot and the limits go through, it
    ends by drawing the canvas, which then shows the dataset. *)
Lemma display_gis_data_renders (w : MainWindow) (d : Dataset) :
  gdf w = Some d →
  let w' := exec (display_gis_data lib) w in
  ∃ es, new_calls w w' = [FigureClear; CallPlot d] ++ es
    ∧ ∀ v minx miny maxx maxy xlim ylim,
        gdf_plot lib d = Ret v →
        total_bounds d = (minx, miny, maxx, maxy) →
        set_lim lib minx maxx = Ret xlim →
        set_lim lib miny maxy = Ret ylim →
        es = [CanvasDraw]
        ∧ figure w' = Some (mkAxes (Some d) (mkView xlim.1 xlim.2 ylim.1 ylim.2) [] false)
        ∧ canvas w' = figure w'.
Proof.
  destruct w as [g wl f c m cs]. cbn. intros ->.
  unfold display_gis_data, new_calls, plot, set_xlim, set_ylim.
  unfold_m.
  destruct (gdf_plot lib d) as [v|e]; cbn.
  - destruct (total_bounds d) as [[[minx miny] maxx] maxy].
    destruct (set_lim lib minx maxx) as [xlim|e] eqn:Hx; cbn;
      [destruct (set_lim lib miny maxy) as [ylim|e] eqn:Hy; cbn|];
      rewrite <- ?app_assoc; rewrite drop_app_length; cbn;
      (eexists; split; [reflexivity|]);
      intros v' a b a' b' xlim' ylim' _ [= <- <- <- <-] Ha Hb; try congruence.
    rewrite Hx in Ha. rewrite Hy in Hb. injection Ha as <-. injection Hb as <-. auto.
  - rewrite <- ?app_assoc; rewrite drop_app_length; cbn.
    eexists; split; [reflexivity|]. intros; discriminate.
Qed.

Lemma clear_canvas_run (w : MainWindow) :
  clear_canvas w
  = (Ret tt,
     mkWindow None (welcome_label w) None None (mkMenus false false false false false)
       (calls w ++ [FigureClear; CanvasDraw] ++ ((fun a => SetEnabled a false) <$> gated_actions))).
Proof.
  destruct w. unfold clear_canvas, update_operations_menu_state. unfold_m.
  rewrite <- !app_assoc. reflexivity.
Qed.

(** ** Open *)

(** What [import_shapefile] leaves when no dataset comes out of it. *)
Lemma import_shapefile_cancelled (w : MainWindow) :
  import_shapefile lib "" w = (Ret None, w).
Proof. reflexivity. Qed.

Lemma import_shapefile_failed (w : MainWindow) (file_path : string) (e : exn) :
  file_path ≠ "" →
  read_file lib file_path = Raise e →
  import_shapefile lib file_path w
  = (Ret None,
     record_call
       (MsgCritical "Error"
          (if is_IOError e then "Error reading the file."
           else "An unexpected error occurred: " +:+ exn_str e))
       (record_call (CallReadFile file_path) w)).
Proof.
  intros Hne He. unfold import_shapefile.
  destruct (String.eqb_spec file_path "") as [->|_]; [done|]. cbn.
  unfold_m. rewrite He. destruct (is_IOError e); reflexivity.
Qed.

(** C1 (as amended).  When Open yields no dataset, because the dialog was
    cancelled or because the reader raised, the handler calls
    [clear_canvas]: the holder becomes absent whatever it held, the figure
    and the canvas are emptied and the five gated commands are disabled; a
    reader failure is reported in a message box first.  An absent holder
    stays absent. *)
Theorem open_file_failure_clears_holder
    (w : MainWindow) (file_path : string)
    (Hfail : file_path = "" ∨ ∃ e, read_file lib file_path = Raise e) :
  let w' := exec (open_file lib file_path) w in
  gdf w' = None
  ∧ figure w' = None ∧ canvas w' = None
  ∧ welcome_label w' = welcome_label w
  ∧ (∀ a, enabled (menus w') a = false)
  ∧ (gdf w = None → gdf w' = gdf w)
  ∧ (file_path ≠ "" →
     ∃ text, new_calls w w' !! 1%nat = Some (MsgCritical "Error" text)).
Proof.
  assert (Hrun : ∃ w1, import_shapefile lib file_path w = (Ret None, w1)
                   ∧ welcome_label w1 = welcome_label w
                   ∧ (file_path ≠ "" →
                      ∃ text, calls w1 = (calls w ++ [CallReadFile file_path; MsgCritical "Error" text]))).
  { destruct (decide (file_path = "")) as [->|Hne].
    - exists w. rewrite import_shapefile_cancelled. done.
    - destruct Hfail as [?|[e He]]; [done|].
      eexists. rewrite (import_shapefile_failed _ _ e Hne He).
      split; [reflexivity|]. split; [reflexivity|]. intros _.
      eexists. cbn. rewrite <- app_assoc. reflexivity. }
  destruct Hrun as (w1 & Hw1 & Hwl & Hcalls).
  assert (Hopen : exec (open_file lib file_path) w
                  = exec (clear_canvas ;; update_operations_menu_state) w1).
  { unfold open_file, exec, bind. by rewrite Hw1. }
  cbn zeta. rewrite Hopen. unfold exec, bind.
  rewrite clear_canvas_run, update_operations_menu_state_run. cbn.
  repeat split; try done.
  - by intros [].
  - intros Hne. destruct (Hcalls Hne) as [text Ht]. exists text.
    unfold new_calls. cbn. rewrite Ht, <- !app_assoc, drop_app_length. reflexivity.
Qed.

End Facts.

Lemma open_file_failure_clears_holder_witness :
  (∃ e, read_file sample_lib "locked.shp" = Raise e)
  ∧ gdf cities_window = Some cities
  ∧ gdf (exec (open_file sample_lib "locked.shp") cities_window) = None
  ∧ new_calls cities_window (exec (open_file sample_lib "locked.shp") cities_window) !! 1%nat
    = Some (MsgCritical "Error" "Error reading the file.").
Proof.
  assert (Hfail : "locked.shp" = "" ∨ ∃ e, read_file sample_lib "locked.shp" = Raise e)
    by (right; eexists; reflexivity).
  split; [eexists; reflexivity|]. split; [reflexivity|].
  split.
  - exact (proj1 (open_file_failure_clears_holder sample_lib cities_window "locked.shp" Hfail)).
  - vm_compute. reflexivity.
Defined.

(** C1, as stated, fails: with [cities.shp] held, a cancelled dialog and a
    reader failure each leave the holder absent instead of unchanged. *)
Lemma open_file_failure_discards_held_dataset :
  gdf cities_window = Some cities
  ∧ gdf (exec (open_file sample_lib "") cities_window) ≠ gdf cities_window
  ∧ read_file sample_lib "locked.shp" = Raise (Exn OSError "Permission denied")
  ∧ gdf (exec (open_file sample_lib "locked.shp") cities_window) ≠ gdf cities_window.
Proof.
  repeat split; try reflexivity; vm_compute; discriminate.
Qed.

(** ** Projection info *)

(** C7.  With a dataset held, Show-Projection-Info opens its dialog on the
    CRS identifier when the dataset has one and on the text
    "Undefined projection" when it has none; no error is reported, and the
    window is as before apart from the logged dialog: holder, figure,
    canvas, label and menu state are untouched. *)
Theorem show_projection_info_read_only
    (w : MainWindow) (d : Dataset) (Hheld : gdf w = Some d) :
  let w' := exec show_projection_info w in
  w' = record_call (ProjectionDialog (projection_text d)) w
  ∧ gdf w' = Some d
  ∧ (∀ c, crs d = Some c → new_calls w w' = [ProjectionDialog c])
  ∧ (crs d = None → new_calls w w' = [ProjectionDialog "Undefined projection"]).
Proof.
  destruct w as [g wl f c m cs]. cbn in Hheld. subst g.
  unfold show_projection_info, new_calls, projection_text. unfold_m.
  rewrite drop_app_length.
  repeat split; intros;
    match goal with H : crs d = _ |- _ => by rewrite H end.
Qed.

Lemma show_projection_info_read_only_witness :
  gdf cities_window = Some cities
  ∧ new_calls cities_window (exec show_projection_info cities_window)
    = [ProjectionDialog "EPSG:4326"]
  ∧ gdf gaps_window = Some gaps
  ∧ new_calls gaps_window (exec show_projection_info gaps_window)
    = [ProjectionDialog "Undefined projection"].
Proof.
  pose proof (show_projection_info_read_only cities_window cities eq_refl) as (_ & _ & H1 & _).
  pose proof (show_projection_info_read_only gaps_window gaps eq_refl) as (_ & _ & _ & H2).
  split; [reflexivity|]. split; [exact (H1 _ eq_refl)|].
  split; [reflexivity|]. exact (H2 eq_refl).
Defined.

(** ** Switch projection *)

Section SwitchProjection.

Variable lib : Collaborators.

(** C4.  Switch-Projection on a cancelled dialog or on a text that is not
    made of digits shows the warning "Invalid EPSG code entered." and does
    nothing else: the reprojector is not called and the window is as before
    apart from the logged warning.  When the text is a number and the
    reprojector raises, the failure is shown and the holder (hence the CRS
    and the geometry of the dataset), the figure, the canvas, the label and
    the menu state are as before. *)
Theorem switch_projection_failure_leaves_dataset
    (w : MainWindow) (epsg_code : string) (ok : bool) :
  let w' := exec (switch_projection lib epsg_code ok) w in
  (ok = false ∨ isdigit epsg_code = false →
     w' = record_call (MsgWarning "Warning" "Invalid EPSG code entered.") w
     ∧ gdf w' = gdf w
     ∧ Forall (fun e => ¬ reprojector_call e) (new_calls w w'))
  ∧ (∀ d n e,
       ok = true → isdigit epsg_code = true → py_int epsg_code = Ret n →
       gdf w = Some d → to_crs lib d (pretty n) = Raise e →
       w' = record_call (MsgWarning "Error" ("Failed to switch projection: " +:+ exn_str e))
              (record_call (CallToCrs d (pretty n)) w)
       ∧ gdf w' = Some d).
Proof.
  destruct w as [g wl f c m cs]. cbn zeta. split.
  - intros Hbad.
    assert (Hcond : negb ok || negb (isdigit epsg_code) = true).
    { destruct Hbad as [-> | ->]; [reflexivity | apply orb_true_r]. }
    unfold switch_projection, new_calls. rewrite Hcond. unfold_m.
    rewrite drop_app_length. repeat split.
    apply Forall_cons_2; [cbn; tauto | apply Forall_nil_2].
  - intros d n e -> Hdig Hint Hg Hfail. cbn in Hg. subst g.
    unfold switch_projection. rewrite Hdig. cbn [negb orb].
    unfold_m. rewrite Hint. cbn. rewrite Hfail. cbn. done.
Qed.

(** A text of digits that [int] refuses (the superscript digits) is caught
    by the handler's [except]: still no call to the reprojector. *)
Lemma switch_projection_int_refuses
    (w : MainWindow) (epsg_code : string) (e : exn) :
  isdigit epsg_code = true → py_int epsg_code = Raise e →
  exec (switch_projection lib epsg_code true) w
  = record_call (MsgWarning "Error" ("Failed to switch projection: " +:+ exn_str e)) w.
Proof.
  intros Hdig Hint. destruct w. unfold switch_projection. rewrite Hdig. cbn [negb orb].
  unfold_m. rewrite Hint. reflexivity.
Qed.

(** On success the holder is replaced by what the reprojector returned. *)
Lemma switch_projection_success
    (w : MainWindow) (epsg_code : string) (d d' : Dataset) (n : N) :
  isdigit epsg_code = true → py_int epsg_code = Ret n →
  gdf w = Some d → to_crs lib d (pretty n) = Ret d' →
  let w' := exec (switch_projection lib epsg_code true) w in
  gdf w' = Some d'
  ∧ welcome_label w' = "Projection switched to EPSG:" +:+ pretty n
  ∧ menus w' = menus w
  ∧ ∃ es, new_calls w w'
          = CallToCrs d (pretty n)
            :: SetWelcomeText ("Projection switched to EPSG:" +:+ pretty n) :: es
        ∧ Forall render_call es.
Proof.
  intros Hdig Hint Hg Hok. destruct w as [g wl f c m cs]. cbn in Hg. subst g.
  set (label := "Projection switched to EPSG:" +:+ pretty n).
  assert (Hrun : exec (switch_projection lib epsg_code true)
                   (mkWindow (Some d) wl f c m cs)
                 = exec (display_gis_data lib)
                     (mkWindow (Some d') label f c m
                        (cs ++ [CallToCrs d (pretty n); SetWelcomeText label]))).
  { unfold switch_projection. rewrite Hdig. cbn [negb orb].
    unfold_m. rewrite Hint. cbn. rewrite Hok. cbn. rewrite <- !app_assoc. cbn.
    subst label.
    match goal with |- context [display_gis_data lib ?w0] =>
      destruct (display_gis_data_returns lib w0) as (w1 & -> & _)
    end. reflexivity. }
  cbn zeta. rewrite Hrun. unfold exec. subst label.
  match goal with |- context [display_gis_data lib ?w0] =>
    destruct (display_gis_data_returns lib w0) as (w1 & -> & Hg1 & Hl1 & Hm1 & es & Hc1 & Hes)
  end.
  cbn in *. repeat split; try done.
  exists es. split; [|done].
  unfold new_calls. cbn. rewrite Hc1, <- !app_assoc, drop_app_length. reflexivity.
Qed.

End SwitchProjection.

Lemma switch_projection_failure_leaves_dataset_witness :
  isdigit "EPSG:3857" = false
  ∧ exec (switch_projection sample_lib "EPSG:3857" true) cities_window
    = record_call (MsgWarning "Warning" "Invalid EPSG code entered.") cities_window
  ∧ isdigit "4326000" = true
  ∧ to_crs sample_lib cities "4326000"
    = Raise (Exn OtherException "Invalid projection: EPSG:4326000")
  ∧ gdf (exec (switch_projection sample_lib "4326000" true) cities_window) = Some cities.
Proof.
  pose proof (switch_projection_failure_leaves_dataset sample_lib cities_window
                "EPSG:3857" true) as [Hinvalid _].
  pose proof (switch_projection_failure_leaves_dataset sample_lib cities_window
                "4326000" true) as [_ Hraises].
  cbn zeta in Hinvalid, Hraises.
  split; [reflexivity|].
  split; [exact (proj1 (Hinvalid (or_intror eq_refl)))|].
  split; [reflexivity|]. split; [reflexivity|].
  exact (proj2 (Hraises cities 4326000%N
                  (Exn OtherException "Invalid projection: EPSG:4326000")
                  eq_refl eq_refl eq_refl eq_refl eq_refl)).
Defined.

Example isdigit_examples :
  isdigit "3857" = true ∧ isdigit "" = false ∧ isdigit "38 57" = false
  ∧ isdigit "-1" = false ∧ isdigit "3857.0" = false
  ∧ py_int "04326" = Ret 4326%N ∧ pretty 4326%N = "4326".
Proof. repeat split; reflexivity. Qed.

(** The superscript two is a digit for [isdigit] and no numeral for [int]:
    the handler reports the [ValueError] and leaves the window alone. *)
Example switch_projection_superscript :
  isdigit superscript_two = true
  ∧ exec (switch_projection sample_lib superscript_two true) cities_window
    = record_call
        (MsgWarning "Error"
           ("Failed to switch projection: invalid literal for int() with base 10: '"
            +:+ superscript_two +:+ "'"))
        cities_window.
Proof.
  split; [reflexivity|].
  exact (switch_projection_int_refuses sample_lib cities_window superscript_two
           (Exn ValueError ("invalid literal for int() with base 10: '"
                            +:+ superscript_two +:+ "'"))
           eq_refl eq_refl).
Qed.

(** ** Suffixes *)

Lemma append_cons (c : Ascii.ascii) (a b : string) :
  String c a +:+ b = String c (a +:+ b).
Proof. reflexivity. Qed.

Lemma chars_app (a b : string) : chars (a +:+ b) = chars a ++ chars b.
Proof.
  unfold chars. induction a as [|c a IH]; [reflexivity|].
  rewrite append_cons. cbn. by rewrite IH.
Qed.

Lemma substring_whole (s : string) : String.substring 0 (String.length s) s = s.
Proof. induction s as [|c s IH]; cbn; [reflexivity | by rewrite IH]. Qed.

Lemma substring_split (s : string) (i : nat) :
  i ≤ String.length s →
  s = String.substring 0 i s +:+ String.substring i (String.length s - i) s.
Proof.
  revert i. induction s as [|c s IH]; intros [|i] Hi; cbn in *; try lia.
  - reflexivity.
  - by rewrite substring_whole.
  - rewrite append_cons. f_equal. apply IH. lia.
Qed.

(** [endswith] holds only of a suffix. *)
Lemma endswith_suffix (s suffix : string) :
  endswith s suffix = true → chars suffix `suffix_of` chars s.
Proof.
  unfold endswith. intros [Hlen Heq%String.eqb_eq]%andb_true_iff.
  apply Nat.leb_le in Hlen.
  exists (chars (String.substring 0 (String.length s - String.length suffix) s)).
  rewrite <- Heq at 2. rewrite <- chars_app.
  f_equal.
  rewrite (substring_split s (String.length s - String.length suffix)) at 1 by lia.
  do 2 f_equal. lia.
Qed.

Lemma vector_suffix_not_raster (s : string) :
  endswith_any s [".shp"; ".geojson"] = true →
  endswith_any s [".tif"; ".tiff"] = false.
Proof.
  unfold endswith_any. cbn [existsb]. rewrite !orb_false_r.
  intros Hv. apply not_true_is_false. intros Hr.
  apply orb_true_iff in Hv. apply orb_true_iff in Hr.
  destruct Hv as [Hv|Hv], Hr as [Hr|Hr];
    apply endswith_suffix in Hv; apply endswith_suffix in Hr;
    destruct (suffix_weak_total _ _ _ Hv Hr) as [H|H];
    revert H;
    match goal with |- ?a `suffix_of` ?b → False =>
      apply (bool_decide_eq_false_1 (a `suffix_of` b)); vm_compute; reflexivity
    end.
Qed.

Lemma endswith_any_nonempty (s : string) (suffixes : list string) :
  Forall (fun x => x ≠ "") suffixes → endswith_any s suffixes = true → s ≠ "".
Proof.
  intros Hne Hs ->. unfold endswith_any in Hs.
  apply existsb_exists in Hs as (x & Hx & Hend).
  rewrite Forall_forall in Hne. apply list_elem_of_In in Hx. specialize (Hne x Hx).
  destruct x; [done|]. discriminate Hend.
Qed.

Lemma render_call_not_clip (e : Event) :
  render_call e →
  ¬ vector_clip_call e ∧ ¬ raster_clip_call e ∧ ¬ reprojector_call e ∧ ¬ menu_call e.
Proof. destruct e; cbn; tauto. Qed.

(** ** Clip *)

Section ClipData.

Variable lib : Collaborators.

Lemma finish_clip_frame (w : MainWindow) :
  gdf (finish_clip lib w) = gdf w
  ∧ welcome_label (finish_clip lib w) = welcome_label w
  ∧ menus (finish_clip lib w) = menus w
  ∧ ∃ es, calls (finish_clip lib w) = calls w ++ es ++ [clip_succeeded] ∧ Forall render_call es.
Proof.
  unfold finish_clip, exec.
  destruct (display_gis_data_returns lib w) as (w1 & -> & Hg & Hl & Hm & es & Hc & Hes).
  cbn. repeat split; try done. exists es. rewrite Hc, <- app_assoc. done.
Qed.

Lemma clip_data_vector_run (w : MainWindow) (d : Dataset) (clip_path : string) :
  gdf w = Some d →
  endswith_any clip_path [".shp"; ".geojson"] = true →
  exec (clip_data lib clip_path) w
  = match read_file lib clip_path with
    | Raise e => log_calls [CallReadFile clip_path; clip_failed e] w
    | Ret clip_gdf =>
        match gdf_clip lib d clip_gdf with
        | Raise e => log_calls [CallReadFile clip_path; CallClip d clip_gdf; clip_failed e] w
        | Ret d' =>
            finish_clip lib (exec (set_gdf (Some d'))
                           (log_calls [CallReadFile clip_path; CallClip d clip_gdf] w))
        end
    end.
Proof.
  intros Hg Hv.
  assert (Hne : clip_path ≠ "").
  { eapply endswith_any_nonempty; [|exact Hv]. repeat constructor; done. }
  destruct w as [g wl f c m cs]. cbn in Hg. subst g.
  unfold clip_data, finish_clip, log_calls. rewrite Hv.
  destruct (String.eqb_spec clip_path "") as [?|_]; [done|].
  unfold_m.
  destruct (read_file lib clip_path) as [clip_gdf|e]; cbn;
    [destruct (gdf_clip lib d clip_gdf) as [d'|e]; cbn|];
    rewrite <- ?app_assoc; cbn; try reflexivity.
  match goal with |- context [display_gis_data lib ?w0] =>
    destruct (display_gis_data_returns lib w0) as (w1 & -> & _)
  end. reflexivity.
Qed.

Lemma clip_data_raster_run (w : MainWindow) (d : Dataset) (clip_path : string) :
  gdf w = Some d →
  endswith_any clip_path [".tif"; ".tiff"] = true →
  exec (clip_data lib clip_path) w
  = match raster_bounds lib clip_path with
    | Raise e => log_calls [CallRasterOpen clip_path; clip_failed e] w
    | Ret bbox =>
        match gdf_cx lib d bbox with
        | Raise e => log_calls [CallRasterOpen clip_path; CallCx d bbox; clip_failed e] w
        | Ret d' =>
            finish_clip lib (exec (set_gdf (Some d'))
                           (log_calls [CallRasterOpen clip_path; CallCx d bbox] w))
        end
    end.
Proof.
  intros Hg Hr.
  assert (Hne : clip_path ≠ "").
  { eapply endswith_any_nonempty; [|exact Hr]. repeat constructor; done. }
  assert (Hv : endswith_any clip_path [".shp"; ".geojson"] = false).
  { destruct (endswith_any clip_path [".shp"; ".geojson"]) eqn:Hv; [|done].
    apply vector_suffix_not_raster in Hv. congruence. }
  destruct w as [g wl f c m cs]. cbn in Hg. subst g.
  unfold clip_data, finish_clip, log_calls. rewrite Hv, Hr.
  destruct (String.eqb_spec clip_path "") as [?|_]; [done|].
  unfold_m.
  destruct (raster_bounds lib clip_path) as [bbox|e]; cbn;
    [destruct (gdf_cx lib d bbox) as [d'|e]; cbn|];
    rewrite <- ?app_assoc; cbn; try reflexivity.
  match goal with |- context [display_gis_data lib ?w0] =>
    destruct (display_gis_data_returns lib w0) as (w1 & -> & _)
  end. reflexivity.
Qed.

Lemma clip_data_other_run (w : MainWindow) (d : Dataset) (clip_path : string) :
  gdf w = Some d →
  endswith_any clip_path [".shp"; ".geojson"] = false →
  endswith_any clip_path [".tif"; ".tiff"] = false →
  exec (clip_data lib clip_path) w
  = if String.eqb clip_path "" then w else finish_clip lib w.
Proof.
  intros Hg Hv Hr.
  destruct w as [g wl f c m cs]. cbn in Hg. subst g.
  unfold clip_data, finish_clip. rewrite Hv, Hr.
  destruct (String.eqb clip_path ""); [reflexivity|].
  unfold_m.
  match goal with |- context [display_gis_data lib ?w0] =>
    destruct (display_gis_data_returns lib w0) as (w1 & -> & _)
  end. reflexivity.
Qed.

End ClipData.

Section ClipDispatch.

Variable lib : Collaborators.

Lemma new_calls_log_calls (es : list Event) (w : MainWindow) :
  new_calls w (log_calls es w) = es.
Proof. unfold new_calls. cbn. apply drop_app_length. Qed.

(** After a step that put [d'] in the holder and [pre] on the log, the tail
    of the happy path adds render calls and the success message. *)
Lemma finish_clip_after (w : MainWindow) (d' : Dataset) (pre : list Event) :
  let w' := finish_clip lib (exec (set_gdf (Some d')) (log_calls pre w)) in
  gdf w' = Some d'
  ∧ menus w' = menus w
  ∧ welcome_label w' = welcome_label w
  ∧ ∃ es, new_calls w w' = pre ++ es ++ [clip_succeeded] ∧ Forall render_call es.
Proof.
  cbn zeta.
  destruct (finish_clip_frame lib (exec (set_gdf (Some d')) (log_calls pre w)))
    as (Hg & Hl & Hm & es & Hc & Hes).
  rewrite Hg, Hl, Hm. repeat split; try done.
  exists es. split; [|done]. unfold new_calls. rewrite Hc. cbn.
  rewrite <- app_assoc. apply drop_app_length.
Qed.

Ltac clip_calls_free :=
  repeat first
    [ apply Forall_nil_2
    | apply Forall_cons_2; [cbn; tauto|]
    | apply Forall_app_2
    | match goal with
      | H : Forall render_call ?es |- Forall _ ?es =>
          eapply Forall_impl; [exact H|];
          let e := fresh "e" in let He := fresh "He" in
          intros e He; apply render_call_not_clip in He; tauto
      end ].

(** C5.  With a dataset held, Clip dispatches on the end of the chosen
    path.  Ending in .shp or .geojson: the clip file is read and
    [gdf.clip] applied, the raster path is never entered, and the holder
    ends with the vector-intersection result (or as it was, when reading
    or clipping raised).  Ending in .tif or .tiff: the raster is opened and
    [gdf.cx] applied to its bounds, the vector path is never entered, and
    the holder ends with the bounds-box result (or as it was on failure).
    Any other path: neither clip is called and the holder is as before. *)
Theorem clip_data_dispatch
    (w : MainWindow) (d : Dataset) (clip_path : string) (Hheld : gdf w = Some d) :
  let w' := exec (clip_data lib clip_path) w in
  (endswith clip_path ".shp" = true ∨ endswith clip_path ".geojson" = true →
     gdf w' = Some (result_or d (vector_clip lib d clip_path))
     ∧ new_calls w w' !! 0%nat = Some (CallReadFile clip_path)
     ∧ (∀ clip_gdf, read_file lib clip_path = Ret clip_gdf →
          new_calls w w' !! 1%nat = Some (CallClip d clip_gdf))
     ∧ Forall (fun e => ¬ raster_clip_call e) (new_calls w w'))
  ∧ (endswith clip_path ".tif" = true ∨ endswith clip_path ".tiff" = true →
     gdf w' = Some (result_or d (raster_bounds_clip lib d clip_path))
     ∧ new_calls w w' !! 0%nat = Some (CallRasterOpen clip_path)
     ∧ (∀ bbox, raster_bounds lib clip_path = Ret bbox →
          new_calls w w' !! 1%nat = Some (CallCx d bbox))
     ∧ Forall (fun e => ¬ vector_clip_call e) (new_calls w w'))
  ∧ (endswith_any clip_path [".shp"; ".geojson"; ".tif"; ".tiff"] = false →
     gdf w' = Some d
     ∧ Forall (fun e => ¬ vector_clip_call e ∧ ¬ raster_clip_call e) (new_calls w w')).
Proof.
  cbn zeta. split; [|split].
  - intros Hv.
    assert (Hany : endswith_any clip_path [".shp"; ".geojson"] = true).
    { unfold endswith_any. cbn. destruct Hv as [-> | ->]; rewrite ?orb_true_r; done. }
    rewrite (clip_data_vector_run lib w d clip_path Hheld Hany). unfold vector_clip.
    destruct (read_file lib clip_path) as [clip_gdf|e];
      [destruct (gdf_clip lib d clip_gdf) as [d'|e]|]; cbn [result_or].
    + destruct (finish_clip_after w d' [CallReadFile clip_path; CallClip d clip_gdf])
        as (Hg & _ & _ & es & Hc & Hes).
      rewrite Hg, Hc. repeat split; try done.
      * by intros ? [= <-].
      * clip_calls_free.
    + rewrite new_calls_log_calls. repeat split; try done.
      * by intros ? [= <-].
      * clip_calls_free.
    + rewrite new_calls_log_calls. repeat split; try done. clip_calls_free.
  - intros Hr.
    assert (Hany : endswith_any clip_path [".tif"; ".tiff"] = true).
    { unfold endswith_any. cbn. destruct Hr as [-> | ->]; rewrite ?orb_true_r; done. }
    rewrite (clip_data_raster_run lib w d clip_path Hheld Hany). unfold raster_bounds_clip.
    destruct (raster_bounds lib clip_path) as [bbox|e];
      [destruct (gdf_cx lib d bbox) as [d'|e]|]; cbn [result_or].
    + destruct (finish_clip_after w d' [CallRasterOpen clip_path; CallCx d bbox])
        as (Hg & _ & _ & es & Hc & Hes).
      rewrite Hg, Hc. repeat split; try done.
      * by intros ? [= <-].
      * clip_calls_free.
    + rewrite new_calls_log_calls. repeat split; try done.
      * by intros ? [= <-].
      * clip_calls_free.
    + rewrite new_calls_log_calls. repeat split; try done. clip_calls_free.
  - intros Hnone. unfold endswith_any in Hnone. cbn in Hnone.
    rewrite !orb_false_iff in Hnone. destruct Hnone as (H1 & H2 & H3 & H4 & _).
    rewrite (clip_data_other_run lib w d clip_path Hheld).
    2,3: unfold endswith_any; cbn; rewrite ?H1, ?H2, ?H3, ?H4; done.
    destruct (String.eqb clip_path "").
    + split; [done|]. unfold new_calls. rewrite drop_all. apply Forall_nil_2.
    + destruct (finish_clip_frame lib w) as (Hg & _ & _ & es & Hc & Hes).
      rewrite Hg. split; [done|].
      unfold new_calls. rewrite Hc, drop_app_length.
      apply Forall_app_2.
      * eapply Forall_impl; [exact Hes|]. intros e He.
        apply render_call_not_clip in He. tauto.
      * apply Forall_cons_2; [cbn; tauto | apply Forall_nil_2].
Qed.

(** C9.  A chosen path that ends in none of the four suffixes still runs
    the tail of the happy path: [display_gis_data] re-renders the unchanged
    dataset (the figure is cleared and the dataset plotted again; when the
    plot and the axis limits go through, the canvas is drawn), and then the
    message "Data clipped successfully." is shown, although neither clip
    was called and the holder is as before. *)
Theorem clip_data_other_extension_reports_success
    (w : MainWindow) (d : Dataset) (clip_path : string)
    (Hheld : gdf w = Some d)
    (Hchosen : clip_path ≠ "")
    (Hother : endswith_any clip_path [".shp"; ".geojson"; ".tif"; ".tiff"] = false) :
  let w' := exec (clip_data lib clip_path) w in
  w' = record_call (MsgInformation "Clip Data" "Data clipped successfully.")
         (exec (display_gis_data lib) w)
  ∧ gdf w' = Some d
  ∧ ∃ es, new_calls w w'
          = [FigureClear; CallPlot d] ++ es
            ++ [MsgInformation "Clip Data" "Data clipped successfully."]
      ∧ Forall render_call es
      ∧ ∀ v minx miny maxx maxy xlim ylim,
          gdf_plot lib d = Ret v →
          total_bounds d = (minx, miny, maxx, maxy) →
          set_lim lib minx maxx = Ret xlim →
          set_lim lib miny maxy = Ret ylim →
          es = [CanvasDraw]
          ∧ canvas w' = Some (mkAxes (Some d) (mkView xlim.1 xlim.2 ylim.1 ylim.2) [] false).
Proof.
  cbn zeta. unfold endswith_any in Hother. cbn in Hother.
  rewrite !orb_false_iff in Hother. destruct Hother as (H1 & H2 & H3 & H4 & _).
  rewrite (clip_data_other_run lib w d clip_path Hheld).
  2,3: unfold endswith_any; cbn; rewrite ?H1, ?H2, ?H3, ?H4; done.
  destruct (String.eqb_spec clip_path "") as [?|_]; [done|].
  unfold finish_clip. split; [reflexivity|].
  destruct (display_gis_data_returns lib w) as (w1 & Hrun & Hg & _ & _ & es & Hc & Hes).
  destruct (display_gis_data_renders lib w d Hheld) as (es' & Hnew & Hdraw).
  unfold exec in *. rewrite Hrun in *. cbn in *.
  assert (Hes' : es = [FigureClear; CallPlot d] ++ es').
  { unfold new_calls in Hnew. by rewrite Hc, drop_app_length in Hnew. }
  subst es. split; [congruence|].
  exists es'. split; [|split].
  - unfold new_calls. cbn. rewrite Hc, <- !app_assoc, drop_app_length. reflexivity.
  - by do 2 apply Forall_cons in Hes as [_ Hes].
  - intros v minx miny maxx maxy xlim ylim Hp Hb Hx Hy.
    destruct (Hdraw v minx miny maxx maxy xlim ylim Hp Hb Hx Hy) as (-> & Hf & Hcv).
    split; [reflexivity|]. congruence.
Qed.

End ClipDispatch.

Lemma clip_data_dispatch_witness :
  gdf cities_window = Some cities
  ∧ endswith "mask.shp" ".shp" = true
  ∧ gdf (exec (clip_data sample_lib "mask.shp") cities_window) = Some cities_clipped
  ∧ endswith "dem.tif" ".tif" = true
  ∧ new_calls cities_window (exec (clip_data sample_lib "dem.tif") cities_window) !! 1%nat
    = Some (CallCx cities (mkBBox 4 1 10 6))
  ∧ endswith_any "notes.txt" [".shp"; ".geojson"; ".tif"; ".tiff"] = false
  ∧ gdf (exec (clip_data sample_lib "notes.txt") cities_window) = Some cities.
Proof.
  split; [reflexivity|]. split; [reflexivity|].
  split.
  { apply (clip_data_dispatch sample_lib cities_window cities "mask.shp" eq_refl).
    left. reflexivity. }
  split; [reflexivity|].
  split.
  { apply (clip_data_dispatch sample_lib cities_window cities "dem.tif" eq_refl);
      [left|]; reflexivity. }
  split; [reflexivity|].
  apply (clip_data_dispatch sample_lib cities_window cities "notes.txt" eq_refl).
  reflexivity.
Defined.

Lemma clip_data_other_extension_reports_success_witness :
  gdf cities_window = Some cities
  ∧ "notes.txt" ≠ ""
  ∧ endswith_any "notes.txt" [".shp"; ".geojson"; ".tif"; ".tiff"] = false
  ∧ exec (clip_data sample_lib "notes.txt") cities_window
    = record_call (MsgInformation "Clip Data" "Data clipped successfully.")
        (exec (display_gis_data sample_lib) cities_window)
  ∧ new_calls cities_window (exec (clip_data sample_lib "notes.txt") cities_window)
    = [FigureClear; CallPlot cities; CanvasDraw;
       MsgInformation "Clip Data" "Data clipped successfully."].
Proof.
  assert (Hne : "notes.txt" ≠ "") by discriminate.
  split; [reflexivity|]. split; [exact Hne|]. split; [reflexivity|].
  split.
  - apply (clip_data_other_extension_reports_success sample_lib cities_window cities
             "notes.txt" eq_refl Hne eq_refl).
  - vm_compute. reflexivity.
Defined.

(** Suffixes are compared as written: an upper-case extension is "other". *)
Example endswith_examples :
  endswith "a/b/mask.shp" ".shp" = true
  ∧ endswith "mask.geojson" ".geojson" = true
  ∧ endswith "dem.tiff" ".tiff" = true ∧ endswith "dem.tiff" ".tif" = false
  ∧ endswith "MASK.SHP" ".shp" = false
  ∧ endswith "shp" ".shp" = false
  ∧ endswith ".shp" ".shp" = true.
Proof. repeat split; reflexivity. Qed.

(** ** Label features *)

Section LabelFeatures.

Variable lib : Collaborators.

Lemma add_labels_nil (w : MainWindow) : is_Some (figure w) → add_labels [] w = w.
Proof.
  destruct w as [g wl [[p v ls b]|] c m cs]; intros [? [=]].
  unfold add_labels. cbn. by rewrite app_nil_r.
Qed.

Lemma add_labels_cons (l : LabelAnchor) (ls : list LabelAnchor) (w : MainWindow) :
  add_labels ls (add_labels [l] w) = add_labels (l :: ls) w.
Proof.
  destruct w as [g wl [[p v ls0 b]|] c m cs]; unfold add_labels; cbn; [|done].
  by rewrite <- app_assoc.
Qed.

(** One turn of the loop on a row that has a label. *)
Lemma label_rows_step (d : Dataset) (field : string) (row : list Value)
    (rest : list (list Value)) (l : LabelAnchor) (w : MainWindow) :
  is_Some (figure w) →
  row_label lib d field row = Ret l →
  label_rows lib d field (row :: rest) w = label_rows lib d field rest (add_labels [l] w).
Proof.
  intros [ax Hax] Hl. unfold row_label in Hl. cbn [label_rows].
  cbv [bind lift modify_axes get set_figure modify].
  destruct (row_get d row "geometry") as [geometry|]; [|done].
  destruct (centroid_of geometry) as [centroid|]; [|done].
  destruct (row_get d row field) as [value|]; [|done].
  injection Hl as <-. unfold add_labels. rewrite Hax. reflexivity.
Qed.

(** One turn of the loop on a row that has none: the exception leaves the
    loop with the labels made so far still on the axes. *)
Lemma label_rows_raise (d : Dataset) (field : string) (row : list Value)
    (rest : list (list Value)) (e : exn) (w : MainWindow) :
  row_label lib d field row = Raise e →
  label_rows lib d field (row :: rest) w = (Raise e, w).
Proof.
  intros Hl. unfold row_label in Hl. cbn [label_rows]. cbv [bind lift].
  destruct (row_get d row "geometry") as [geometry|]; [|congruence].
  destruct (centroid_of geometry) as [centroid|]; [|congruence].
  destruct (row_get d row field) as [value|]; [done|congruence].
Qed.

Lemma label_rows_prefix (d : Dataset) (field : string) (pre rest : list (list Value))
    (ls : list LabelAnchor) (w : MainWindow) :
  is_Some (figure w) →
  row_labels lib d field pre = Some ls →
  label_rows lib d field (pre ++ rest) w = label_rows lib d field rest (add_labels ls w).
Proof.
  revert ls w. induction pre as [|row pre IH]; intros ls w Hfig Hls.
  - injection Hls as <-. by rewrite add_labels_nil.
  - cbn [row_labels] in Hls.
    destruct (row_label lib d field row) as [l|] eqn:Hl; [|done].
    destruct (row_labels lib d field pre) as [ls'|]; [|done].
    injection Hls as <-. cbn [app].
    rewrite (label_rows_step d field row (pre ++ rest) l w Hfig Hl).
    rewrite (IH ls' (add_labels [l] w)); [by rewrite add_labels_cons | | done].
    destruct Hfig as [ax Hax]. unfold add_labels. rewrite Hax. by eexists.
Qed.

(** C6 (as amended).  When the label of a feature cannot be computed, the
    failure is reported and the holder, the welcome label and the menu
    state are as before.  The figure is not as before: it was cleared and
    replotted first, so labels it carried are gone, and it carries the
    labels of the features that precede the failing one, all visible, with
    no view listener. *)
Theorem label_features_failure_keeps_partial_labels
    (w : MainWindow) (d : Dataset) (field : string) (v : ViewRectangle)
    (pre post : list (list Value)) (row : list Value)
    (ls : list LabelAnchor) (e : exn)
    (Hheld : gdf w = Some d)
    (Hfield : field ≠ "")
    (Hplot : gdf_plot lib d = Ret v)
    (Hrows : rows d = pre ++ row :: post)
    (Hpre : row_labels lib d field pre = Some ls)
    (Hfail : row_label lib d field row = Raise e) :
  let w' := exec (label_features lib field true) w in
  new_calls w w'
  = [FigureClear; CallPlot d; MsgCritical "Error" ("Failed to display labels: " +:+ exn_str e)]
  ∧ gdf w' = gdf w
  ∧ welcome_label w' = welcome_label w ∧ menus w' = menus w
  ∧ figure w' = Some (mkAxes (Some d) v ls false).
Proof.
  destruct w as [g wl f c m cs]. cbn in Hheld. subst g. cbn zeta.
  unfold label_features, new_calls, plot.
  destruct (String.eqb_spec field "") as [?|_]; [done|]. cbn [negb andb].
  unfold_m.
  rewrite Hplot. cbn. rewrite Hrows.
  rewrite (label_rows_prefix d field pre (row :: post) ls) by (by eexists || done).
  rewrite (label_rows_raise d field row post e) by done.
  cbn. rewrite <- !app_assoc, drop_app_length. done.
Qed.

End LabelFeatures.

Lemma label_features_failure_keeps_partial_labels_witness :
  gdf gaps_window = Some gaps
  ∧ row_label sample_lib gaps "name" [VStr "B"; VNone]
    = Raise (Exn AttributeError "'NoneType' object has no attribute 'centroid'")
  ∧ figure (exec (label_features sample_lib "name" true) gaps_window)
    = Some (mkAxes (Some gaps) (mkView 1 9 1 2) [mkLabel (mkPoint 1 1) "A" true] false).
Proof.
  split; [reflexivity|]. split; [reflexivity|].
  apply (label_features_failure_keeps_partial_labels sample_lib gaps_window gaps "name"
           (mkView 1 9 1 2)
           [[VStr "A"; VGeom (point_geometry "POINT (1 1)" 1 1)]]
           [[VStr "C"; VGeom (point_geometry "POINT (9 2)" 9 2)]]
           [VStr "B"; VNone]
           [mkLabel (mkPoint 1 1) "A" true]
           (Exn AttributeError "'NoneType' object has no attribute 'centroid'"));
    (reflexivity || discriminate).
Defined.

(** C6, as stated, fails: [gaps.shp] is open and shown without labels; its
    second feature has no geometry.  Label-Features on "name" reports the
    failure, and the figure is left with the label of the first feature
    only: one label for three features. *)
Lemma label_features_failure_is_partial :
  (ax_labels <$> figure gaps_window) = Some []
  ∧ last (calls (exec (label_features sample_lib "name" true) gaps_window))
    = Some (MsgCritical "Error"
              "Failed to display labels: 'NoneType' object has no attribute 'centroid'")
  ∧ (ax_labels <$> figure (exec (label_features sample_lib "name" true) gaps_window))
    = Some [mkLabel (mkPoint 1 1) "A" true]
  ∧ figure (exec (label_features sample_lib "name" true) gaps_window) ≠ figure gaps_window
  ∧ (len <$> gdf (exec (label_features sample_lib "name" true) gaps_window)) = Some 3%nat.
Proof.
  repeat split; try (vm_compute; reflexivity).
  vm_compute. discriminate.
Qed.

Section LabelFeaturesSuccess.

Variable lib : Collaborators.



End LabelFeaturesSuccess.

(** The scenario of the three cities: labels "A", "B", "C" at the three
    centroids; after a zoom on the window [4,6] x [4,6] only "B" is
    visible. *)
Example label_features_scenario :
  let w' := exec (label_features sample_lib "name" true) cities_window in
  (ax_labels <$> figure w')
  = Some [mkLabel (mkPoint 1 1) "A" true; mkLabel (mkPoint 5 5) "B" true;
          mkLabel (mkPoint 9 2) "C" true]
  ∧ (ax_labels ∘ view_changed (mkView 4 6 4 6) <$> figure w')
    = Some [mkLabel (mkPoint 1 1) "A" false; mkLabel (mkPoint 5 5) "B" true;
            mkLabel (mkPoint 9 2) "C" false].
Proof. split; vm_compute; reflexivity. Qed.

(** ** The attribute table *)

Section AttributeTable.

Variable lib : Collaborators.

Lemma setItem_in_range (i j : nat) (s : string) (t : Table) :
  i < rowCount t → j < columnCount t →
  setItem i j s t
  = mkTable (columnCount t) (rowCount t) (horizontalHeaderLabels t) (<[(i, j) := s]> (items t)).
Proof.
  intros Hi Hj. unfold setItem.
  destruct (Nat.ltb_spec i (rowCount t)); [|lia].
  destruct (Nat.ltb_spec j (columnCount t)); [|lia]. reflexivity.
Qed.

(** The inner loop, started at column [j] with [cols] columns to go. *)
Lemma fill_row_spec (d : Dataset) (i : nat) (row : list Value) (cols : list string) :
  rows d !! i = Some row →
  ∀ (j : nat) (t : Table),
    length row = j + length cols →
    i < rowCount t → j + length cols ≤ columnCount t →
    ∃ t', fill_row lib d i j cols t = Ret t'
      ∧ columnCount t' = columnCount t ∧ rowCount t' = rowCount t
      ∧ horizontalHeaderLabels t' = horizontalHeaderLabels t
      ∧ (∀ j' v, j ≤ j' → row !! j' = Some v → items t' !! (i, j') = Some (py_str lib v))
      ∧ (∀ i' j', i' ≠ i ∨ j' < j → items t' !! (i', j') = items t !! (i', j'))
      ∧ (∀ i' j', is_Some (items t' !! (i', j')) →
           is_Some (items t !! (i', j')) ∨ (i' = i ∧ j' < columnCount t)).
Proof.
  intros Hrow. induction cols as [|c cols IH]; intros j t Hlen Hi Hj; cbn [fill_row].
  - exists t. repeat split; auto.
    intros j' v Hle Hv. apply lookup_lt_Some in Hv. cbn in Hlen. lia.
  - cbn in Hlen, Hj.
    destruct (lookup_lt_is_Some_2 row j) as [v Hv]; [lia|].
    unfold iloc. rewrite Hrow, Hv.
    rewrite setItem_in_range by lia.
    edestruct (IH (S j)) as (t' & Hrun & Hcc & Hrc & Hh & Hset & Hkeep & Hdom);
      [| | | exists t'; split; [exact Hrun|] ]; cbn; try lia.
    cbn in Hcc, Hrc, Hh, Hkeep, Hdom.
    repeat split; try done.
    + intros j' v' Hle Hv'. destruct (decide (j' = j)) as [->|Hne].
      * rewrite Hkeep by (right; lia). rewrite lookup_insert_eq. congruence.
      * apply Hset; [lia | done].
    + intros i' j' Hout. rewrite Hkeep by (destruct Hout; [by left | right; lia]).
      apply lookup_insert_ne. intros [= -> ->]. destruct Hout; [done | lia].
    + intros i' j' Hsome. destruct (Hdom i' j' Hsome) as [Hin|Hin]; [|by right].
      destruct (decide ((i, j) = (i', j'))) as [[= <- <-]|Hne].
      * right. split; [done | lia].
      * left. by rewrite lookup_insert_ne in Hin.
Qed.

(** The outer loop over a list of row numbers. *)
Lemma fill_rows_spec (d : Dataset) (indices : list nat) :
  rectangular d →
  Forall (fun i => i < len d) indices →
  ∀ t : Table,
    rowCount t = len d → columnCount t = length (columns d) →
    items_within d t →
    ∃ t', fill_rows lib d indices t = Ret t'
      ∧ columnCount t' = columnCount t ∧ rowCount t' = rowCount t
      ∧ horizontalHeaderLabels t' = horizontalHeaderLabels t
      ∧ (∀ i j, i ∈ indices → cell_filled lib d t' i j)
      ∧ (∀ i j, cell_filled lib d t i j → cell_filled lib d t' i j)
      ∧ items_within d t'.
Proof.
  intros Hrect. induction indices as [|i indices IH]; intros Hin t Hrc Hcc Hwithin;
    cbn [fill_rows].
  - exists t. do 4 (split; [done|]). split; [|done].
    intros i j Hi. by apply elem_of_nil in Hi.
  - apply Forall_cons in Hin as [Hi Hin].
    destruct (lookup_lt_is_Some_2 (rows d) i Hi) as [row Hrow].
    assert (Hlen : length row = length (columns d)).
    { unfold rectangular in Hrect. rewrite Forall_forall in Hrect.
      apply Hrect. by eapply list_elem_of_lookup_2. }
    destruct (fill_row_spec d i row (columns d) Hrow 0 t)
      as (t1 & Hrun & Hcc1 & Hrc1 & Hh1 & Hset & Hkeep & Hdom); try lia.
    rewrite Hrun.
    assert (Hrow_filled : ∀ j, cell_filled lib d t1 i j).
    { intros j row' v Hrow' Hv. rewrite Hrow in Hrow'. injection Hrow' as <-.
      apply Hset; [lia | done]. }
    assert (Hpres : ∀ i' j, cell_filled lib d t i' j → cell_filled lib d t1 i' j).
    { intros i' j Hok. destruct (decide (i' = i)) as [->|Hne]; [apply Hrow_filled|].
      intros row' v Hrow' Hv. rewrite Hkeep by (by left). by eapply Hok. }
    destruct (IH Hin t1) as (t' & Hrun' & Hcc' & Hrc' & Hh' & Hset' & Hkeep' & Hwithin');
      try congruence.
    { intros i' j' Hsome. destruct (Hdom i' j' Hsome) as [Hold|[-> Hj]].
      - by apply Hwithin.
      - split; [done | lia]. }
    exists t'. split; [exact Hrun'|].
    do 3 (split; [congruence|]).
    split; [|split; [|done]].
    + intros i' j Hi'. apply elem_of_cons in Hi' as [->|Hi'].
      * apply Hkeep', Hrow_filled.
      * by apply Hset'.
    + intros i' j Hok. by apply Hkeep', Hpres.
Qed.

(** C10.  With a dataset held, Show-Attribute-Table shows a table with one
    row per feature and one column per column of the frame, headed by the
    column labels in order (the geometry column is one of them and gets
    its column like the others); the item of row i and column j is [str]
    of the frame's cell (i, j), and there is no other item.  The holder is
    not touched. *)
Theorem show_attribute_table_cells
    (w : MainWindow) (d : Dataset)
    (Hheld : gdf w = Some d) (Hrect : rectangular d) :
  let w' := exec (show_attribute_table lib) w in
  ∃ t, new_calls w w' = [AttributeDialog t]
    ∧ gdf w' = Some d
    ∧ rowCount t = len d
    ∧ columnCount t = length (columns d)
    ∧ horizontalHeaderLabels t = columns d
    ∧ (∀ i j row v, rows d !! i = Some row → row !! j = Some v →
         items t !! (i, j) = Some (py_str lib v))
    ∧ (∀ i j, is_Some (items t !! (i, j)) → i < len d ∧ j < length (columns d)).
Proof.
  destruct (fill_rows_spec d (seq 0 (len d)) Hrect) with
    (t := mkTable (length (columns d)) (len d) (columns d) ∅)
    as (t & Hrun & Hcc & Hrc & Hh & Hset & _ & Hwithin); try done.
  { apply Forall_forall. intros i Hi. apply elem_of_seq in Hi. lia. }
  { intros i j [? Hsome]. cbn in Hsome. by rewrite lookup_empty in Hsome. }
  destruct w as [g wl f c m cs]. cbn in Hheld. subst g. cbn zeta.
  exists t. unfold show_attribute_table, attribute_table, new_calls.
  unfold_m. rewrite Hrun. cbn.
  rewrite drop_app_length. cbn in Hcc, Hrc, Hh.
  do 5 (split; [done|]). split; [|exact Hwithin].
  intros i j row v Hrow Hv. eapply Hset; [|done..].
  apply elem_of_seq. apply lookup_lt_Some in Hrow. unfold len. lia.
Qed.

End AttributeTable.

Lemma cities_rectangular : rectangular cities.
Proof. repeat constructor. Qed.

Lemma show_attribute_table_cells_witness :
  gdf cities_window = Some cities ∧ rectangular cities
  ∧ ∃ t, new_calls cities_window (exec (show_attribute_table sample_lib) cities_window)
         = [AttributeDialog t]
      ∧ rowCount t = 3%nat ∧ columnCount t = 3%nat
      ∧ horizontalHeaderLabels t = ["name"; "pop"; "geometry"]
      ∧ items t !! (1%nat, 1%nat) = Some "45"
      ∧ items t !! (2%nat, 2%nat) = Some "POINT (9 2)".
Proof.
  split; [reflexivity|]. split; [exact cities_rectangular|].
  destruct (show_attribute_table_cells sample_lib cities_window cities eq_refl cities_rectangular)
    as (t & Hcalls & _ & Hrc & Hcc & Hh & Hcells & _).
  exists t. split; [exact Hcalls|]. split; [exact Hrc|]. split; [exact Hcc|].
  split; [exact Hh|]. split.
  - apply (Hcells 1%nat 1%nat [VStr "B"; VInt 45; VGeom (point_geometry "POINT (5 5)" 5 5)]
             (VInt 45)); reflexivity.
  - apply (Hcells 2%nat 2%nat [VStr "C"; VInt 7; VGeom (point_geometry "POINT (9 2)" 9 2)]
             (VGeom (point_geometry "POINT (9 2)" 9 2))); reflexivity.
Defined.

(** ** Enablement through the handlers *)

Lemma keeps_menu_state_agree (w w' : MainWindow) :
  keeps_menu_state w w' → menus_agree w → menus_agree w'.
Proof.
  intros (Hm & Hg & _) Hagree a. rewrite Hm, Hagree.
  apply bool_decide_ext. tauto.
Qed.

Arguments clear_canvas : simpl never.
Arguments update_operations_menu_state : simpl never.

Section Enablement.

Variable lib : Collaborators.

Ltac no_menu_calls :=
  unfold new_calls; cbn; rewrite <- ?app_assoc; rewrite ?drop_app_length; cbn;
  repeat first
    [ apply Forall_nil_2
    | apply Forall_cons_2; [cbn; tauto|]
    | apply Forall_app_2
    | match goal with
      | H : Forall render_call ?es |- Forall _ ?es =>
          eapply Forall_impl; [exact H|];
          let e := fresh "e" in let He := fresh "He" in
          intros e He; apply render_call_not_clip in He; tauto
      end ].

Ltac after_display :=
  match goal with |- context [display_gis_data lib ?w0] =>
    let w1 := fresh "w" in
    destruct (display_gis_data_returns lib w0)
      as (w1 & -> & ? & ? & ? & ? & ? & ?);
    destruct w1; cbn in *; subst
  end.

Lemma show_projection_info_frame (w : MainWindow) :
  keeps_menu_state w (exec show_projection_info w).
Proof.
  destruct w as [[d|] wl f c m cs]; unfold show_projection_info, keeps_menu_state;
    unfold_m; (split; [done|]); (split; [done|]); no_menu_calls.
Qed.

Lemma switch_projection_frame (w : MainWindow) (epsg_code : string) (ok : bool) :
  keeps_menu_state w (exec (switch_projection lib epsg_code ok) w).
Proof.
  destruct w as [g wl f c m cs]. unfold switch_projection, keeps_menu_state.
  destruct (negb ok || negb (isdigit epsg_code)).
  { unfold_m. split; [done|]. split; [done|]. no_menu_calls. }
  unfold_m. destruct (py_int epsg_code) as [n|e]; cbn.
  2: { split; [done|]. split; [done|]. no_menu_calls. }
  destruct g as [d|]; cbn.
  2: { split; [done|]. split; [done|]. no_menu_calls. }
  destruct (to_crs lib d (pretty n)) as [d'|e]; cbn.
  2: { split; [done|]. split; [done|]. no_menu_calls. }
  after_display. split; [done|]. split; [done|]. no_menu_calls.
Qed.

Lemma clip_data_frame (w : MainWindow) (clip_path : string) :
  keeps_menu_state w (exec (clip_data lib clip_path) w).
Proof.
  destruct (gdf w) as [d|] eqn:Hheld.
  2: { destruct w as [g wl f c m cs]. cbn in Hheld. subst g.
       unfold clip_data, keeps_menu_state. unfold_m.
       split; [done|]. split; [done|]. no_menu_calls. }
  unfold keeps_menu_state. rewrite Hheld.
  destruct (endswith_any clip_path [".shp"; ".geojson"]) eqn:Hv.
  { rewrite (clip_data_vector_run lib w d clip_path Hheld Hv).
    destruct (read_file lib clip_path) as [clip_gdf|e];
      [destruct (gdf_clip lib d clip_gdf) as [d'|e]|].
    - destruct (finish_clip_after lib w d' [CallReadFile clip_path; CallClip d clip_gdf])
        as (Hg & Hm & _ & es & Hc & Hes).
      rewrite Hg, Hm, Hc. split; [done|]. split; [done|]. no_menu_calls.
    - rewrite new_calls_log_calls. cbn. rewrite Hheld.
      split; [done|]. split; [done|]. no_menu_calls.
    - rewrite new_calls_log_calls. cbn. rewrite Hheld.
      split; [done|]. split; [done|]. no_menu_calls. }
  destruct (endswith_any clip_path [".tif"; ".tiff"]) eqn:Hr.
  { rewrite (clip_data_raster_run lib w d clip_path Hheld Hr).
    destruct (raster_bounds lib clip_path) as [bbox|e];
      [destruct (gdf_cx lib d bbox) as [d'|e]|].
    - destruct (finish_clip_after lib w d' [CallRasterOpen clip_path; CallCx d bbox])
        as (Hg & Hm & _ & es & Hc & Hes).
      rewrite Hg, Hm, Hc. split; [done|]. split; [done|]. no_menu_calls.
    - rewrite new_calls_log_calls. cbn. rewrite Hheld.
      split; [done|]. split; [done|]. no_menu_calls.
    - rewrite new_calls_log_calls. cbn. rewrite Hheld.
      split; [done|]. split; [done|]. no_menu_calls. }
  rewrite (clip_data_other_run lib w d clip_path Hheld Hv Hr).
  destruct (String.eqb clip_path "").
  - rewrite Hheld. split; [done|]. split; [done|].
    unfold new_calls. rewrite drop_all. apply Forall_nil_2.
  - destruct (finish_clip_frame lib w) as (Hg & _ & Hm & es & Hc & Hes).
    rewrite Hg, Hm, Hheld. split; [done|]. split; [done|].
    unfold new_calls. rewrite Hc, drop_app_length. no_menu_calls.
Qed.

Lemma show_attribute_table_frame (w : MainWindow) :
  keeps_menu_state w (exec (show_attribute_table lib) w).
Proof.
  destruct w as [[d|] wl f c m cs]; unfold show_attribute_table, keeps_menu_state; unfold_m.
  - destruct (attribute_table lib d) as [t|e]; cbn;
      (split; [done|]); (split; [done|]); no_menu_calls.
    unfold new_calls. cbn. rewrite drop_all. apply Forall_nil_2.
  - split; [done|]. split; [done|]. no_menu_calls.
Qed.

(** The labelling loop touches the figure only. *)
Lemma label_rows_frame (d : Dataset) (field : string) (rs : list (list Value))
    (w : MainWindow) :
  ∃ o f', label_rows lib d field rs w
          = (o, mkWindow (gdf w) (welcome_label w) f' (canvas w) (menus w) (calls w)).
Proof.
  revert w. induction rs as [|row rs IH]; intros [g wl f c m cs]; cbn [label_rows].
  - by exists (Ret tt), f.
  - unfold bind at 1. unfold lift at 1.
    destruct (row_get d row "geometry") as [geometry|e]; [|by exists (Raise e), f].
    unfold bind at 1. unfold lift at 1.
    destruct (centroid_of geometry) as [centroid|e]; [|by exists (Raise e), f].
    unfold bind at 1. unfold lift at 1.
    destruct (row_get d row field) as [value|e]; [|by exists (Raise e), f].
    unfold bind at 1. unfold modify_axes at 1. unfold_m.
    destruct f as [ax|]; cbn; apply IH.
Qed.

Lemma label_features_frame (w : MainWindow) (field : string) (ok : bool) :
  keeps_menu_state w (exec (label_features lib field ok) w).
Proof.
  destruct w as [[d|] wl f c m cs]; unfold label_features, keeps_menu_state.
  2: { unfold_m. split; [done|]. split; [done|]. no_menu_calls. }
  cbn [gdf get bind]. unfold bind at 1. unfold get at 1. cbn [gdf].
  destruct (ok && negb (String.eqb field "")).
  2: { unfold_m. split; [done|]. split; [done|].
       unfold new_calls. cbn. rewrite drop_all. apply Forall_nil_2. }
  unfold plot. unfold try_except, exec.
  unfold bind at 1. unfold figure_clear at 1. unfold_m.
  destruct (gdf_plot lib d) as [v|e]; cbn.
  2: { split; [done|]. split; [done|]. no_menu_calls. }
  match goal with |- context [label_rows lib d field (rows d) ?w0] =>
    destruct (label_rows_frame d field (rows d) w0) as (o & f' & ->)
  end.
  cbn. destruct o as [[]|e]; cbn.
  - destruct f'; cbn; (split; [done|]); (split; [done|]); no_menu_calls.
  - split; [done|]. split; [done|]. no_menu_calls.
Qed.

(** Open always reaches its last line, the menu update. *)
Lemma open_file_ends_with_update (w : MainWindow) (file_path : string) :
  ∃ w2 es, exec (open_file lib file_path) w = exec update_operations_menu_state w2
           ∧ calls w2 = calls w ++ es.
Proof.
  assert (Himport : ∃ r w1 es1, import_shapefile lib file_path w = (Ret r, w1)
                                ∧ calls w1 = calls w ++ es1).
  { unfold import_shapefile. destruct (negb (String.eqb file_path "")).
    - destruct w as [g wl f c m cs]. unfold_m.
      destruct (read_file lib file_path) as [d|e]; cbn; [|destruct (is_IOError e); cbn];
        do 3 eexists; (split; [reflexivity|]); cbn; rewrite <- ?app_assoc; reflexivity.
    - exists None, w, []. by rewrite app_nil_r. }
  destruct Himport as (r & w1 & es1 & Hrun & Hc1).
  unfold open_file, exec. unfold bind at 1 2. rewrite Hrun.
  destruct r as [[g path]|].
  - destruct w1 as [g1 wl1 f1 c1 m1 cs1]. unfold_m. cbn in Hc1. subst cs1.
    after_display. do 2 eexists. split; [reflexivity|]. cbn.
    rewrite <- !app_assoc. reflexivity.
  - rewrite clear_canvas_run. do 2 eexists. split; [reflexivity|]. cbn.
    rewrite Hc1, <- !app_assoc. reflexivity.
Qed.

(** Open recomputes the enablement from the holder it leaves. *)
Lemma open_file_recomputes (w : MainWindow) (file_path : string) :
  let w' := exec (open_file lib file_path) w in
  menus_agree w'
  ∧ ∃ es, new_calls w w'
          = es ++ ((fun a => SetEnabled a (bool_decide (gdf w' ≠ None))) <$> gated_actions).
Proof.
  cbn zeta. destruct (open_file_ends_with_update w file_path) as (w2 & es & -> & Hc).
  split; [apply menus_agree_after_update|].
  unfold exec. rewrite update_operations_menu_state_run. cbn - [gated_actions].
  exists es. unfold new_calls. cbn - [gated_actions].
  rewrite Hc, <- app_assoc. apply drop_app_length.
Qed.

(** Every command keeps the menu state in agreement with the holder. *)
Lemma handle_preserves_menus_agree (c : Command) (w : MainWindow) :
  menus_agree w → menus_agree (exec (handle lib c) w).
Proof.
  destruct c as [path| |code ok|path| |field ok]; cbn [handle].
  - intros _. apply open_file_recomputes.
  - apply keeps_menu_state_agree, show_projection_info_frame.
  - apply keeps_menu_state_agree, switch_projection_frame.
  - apply keeps_menu_state_agree, clip_data_frame.
  - apply keeps_menu_state_agree, show_attribute_table_frame.
  - apply keeps_menu_state_agree, label_features_frame.
Qed.

Lemma init_menus_agree : menus_agree init.
Proof. intros []; reflexivity. Qed.

(** C8 (as amended).  After every command handler the enabled state of the
    five gated commands equals enabled(hasDataset) of the holder it leaves,
    provided it did before.  Open and [clear_canvas] get there by
    recomputing: their last calls are the five [setEnabled] with the flag
    of the new holder (always disabled after [clear_canvas]).  Switch-Projection and Clip do not recompute: they
    make no [setEnabled] call and leave the menu state as it was, and they
    keep a held dataset held and an absent one absent. *)
Theorem enablement_agrees_after_every_handler
    (w : MainWindow) (c : Command) (Hagree : menus_agree w) :
  menus_agree (exec (handle lib c) w)
  ∧ (∀ file_path,
       let w' := exec (open_file lib file_path) w in
       ∃ es, new_calls w w'
             = es ++ ((fun a => SetEnabled a (bool_decide (gdf w' ≠ None))) <$> gated_actions))
  ∧ (let w' := exec clear_canvas w in
     menus_agree w'
     ∧ gdf w' = None
     ∧ new_calls w w'
       = [FigureClear; CanvasDraw] ++ ((fun a => SetEnabled a false) <$> gated_actions))
  ∧ (∀ epsg_code ok, keeps_menu_state w (exec (switch_projection lib epsg_code ok) w))
  ∧ (∀ clip_path, keeps_menu_state w (exec (clip_data lib clip_path) w)).
Proof.
  split; [by apply handle_preserves_menus_agree|].
  split; [intros file_path; apply open_file_recomputes|].
  split; [|split; [apply switch_projection_frame | apply clip_data_frame]].
  cbn zeta. unfold exec. rewrite (clear_canvas_run w). cbn - [gated_actions].
  split; [intros []; reflexivity|]. split; [reflexivity|].
  unfold new_calls. cbn - [gated_actions]. apply drop_app_length.
Qed.

End Enablement.

(** In every window the program reaches, whatever the libraries answer from
    one command to the next, each gated command is enabled exactly when a
    dataset is held. *)
Lemma reachable_menus_agree (w : MainWindow) : reachable w → menus_agree w.
Proof.
  induction 1 as [|lib w c _ IH]; [apply init_menus_agree|].
  by apply handle_preserves_menus_agree.
Qed.

Lemma enablement_agrees_after_every_handler_witness :
  menus_agree cities_window
  ∧ menus_agree (exec (handle sample_lib (CmdSwitchProjection "3857" true)) cities_window)
  ∧ keeps_menu_state cities_window (exec (clip_data sample_lib "mask.shp") cities_window).
Proof.
  assert (Hagree : menus_agree cities_window) by (intros []; reflexivity).
  pose proof (enablement_agrees_after_every_handler sample_lib cities_window
                (CmdSwitchProjection "3857" true) Hagree) as (H1 & _ & _ & _ & H2).
  split; [exact Hagree|]. split; [exact H1 | exact (H2 "mask.shp")].
Defined.

(** C8, as stated, fails: Switch-Projection to EPSG:3857 replaces the held
    dataset and returns without any [setEnabled] call, so the enablement is
    not recomputed after this mutation of the holder. *)
Lemma switch_projection_does_not_recompute :
  gdf cities_window = Some cities
  ∧ gdf (exec (switch_projection sample_lib "3857" true) cities_window) = Some cities_3857
  ∧ gdf (exec (switch_projection sample_lib "3857" true) cities_window) ≠ gdf cities_window
  ∧ new_calls cities_window (exec (switch_projection sample_lib "3857" true) cities_window)
    = [CallToCrs cities "3857"; SetWelcomeText "Projection switched to EPSG:3857";
       FigureClear; CallPlot cities_3857; CanvasDraw]
  ∧ Forall (fun e => ¬ menu_call e)
      (new_calls cities_window (exec (switch_projection sample_lib "3857" true) cities_window)).
Proof.
  assert (Hcalls : new_calls cities_window
                     (exec (switch_projection sample_lib "3857" true) cities_window)
                   = [CallToCrs cities "3857";
                      SetWelcomeText "Projection switched to EPSG:3857";
                      FigureClear; CallPlot cities_3857; CanvasDraw])
    by (vm_compute; reflexivity).
  split; [reflexivity|]. split; [vm_compute; reflexivity|].
  split; [vm_compute; discriminate|]. split; [exact Hcalls|].
  rewrite Hcalls. repeat (apply Forall_cons_2; [cbn; tauto|]). apply Forall_nil_2.
Qed.

(** * More of the program *)

(** ** Rendering *)

Section Rendering.

Variable lib : Collaborators.

(** What [display_gis_data] leaves when a dataset is held. *)
Lemma display_gis_data_held (w : MainWindow) (d : Dataset) :
  gdf w = Some d →
  ∃ ax cv es,
    display_gis_data lib w
    = (Ret tt,
       mkWindow (Some d) (welcome_label w) (Some ax) cv (menus w)
         (calls w ++ [FigureClear; CallPlot d] ++ es))
    ∧ ax_labels ax = [] ∧ ax_listening ax = false
    ∧ ((cv = Some ax ∧ ax_plotted ax = Some d ∧ es = [CanvasDraw])
       ∨ (cv = canvas w ∧ (ax_plotted ax = None ∨ ax_plotted ax = Some d)
          ∧ ∃ e, es = [display_failed e])).
Proof.
  destruct w as [g wl f c m cs]. cbn. intros ->.
  unfold display_gis_data, plot, set_xlim, set_ylim, display_failed. unfold_m.
  destruct (gdf_plot lib d) as [v|e]; cbn.
  - destruct (total_bounds d) as [[[minx miny] maxx] maxy].
    destruct (set_lim lib minx maxx) as [xlim|e]; cbn;
      [destruct (set_lim lib miny maxy) as [ylim|e]; cbn|];
      rewrite <- ?app_assoc; cbn;
      do 3 eexists; (split; [reflexivity|]); cbn; (split; [done|]); (split; [done|]).
    + by left.
    + right. split; [done|]. split; [by right | by eexists].
    + right. split; [done|]. split; [by right | by eexists].
  - rewrite <- ?app_assoc; cbn.
    do 3 eexists. split; [reflexivity|]. cbn. split; [done|]. split; [done|].
    right. split; [done|]. split; [by left | by eexists].
Qed.


(** ** Import and Open *)

(** X2.  [import_shapefile] never raises and changes nothing but the log.
    It hands back a dataset exactly when a path was chosen and the reader
    succeeded, and then the dataset is the reader's and the path the chosen
    one.  The reader is called exactly when a path was chosen.  A reader
    failure is shown in one message box: "Error reading the file." for an
    [IOError], the text of the exception after "An unexpected error
    occurred: " for any other; a cancelled dialog shows nothing. *)
Theorem import_shapefile_outcomes (w : MainWindow) (file_path : string) :
  ∃ r es,
    import_shapefile lib file_path w = (Ret r, log_calls es w)
    ∧ (∀ d path, r = Some (d, path) ↔
                 file_path ≠ "" ∧ read_file lib file_path = Ret d ∧ path = file_path)
    ∧ (file_path = "" → es = [])
    ∧ (file_path ≠ "" → es !! 0%nat = Some (CallReadFile file_path))
    ∧ (∀ e, file_path ≠ "" → read_file lib file_path = Raise e →
            es = [CallReadFile file_path;
                  MsgCritical "Error"
                    (if is_IOError e then "Error reading the file."
                     else "An unexpected error occurred: " +:+ exn_str e)])
    ∧ (Forall (fun e => ¬ message_box e) es ↔ is_Some r ∨ file_path = "").
Proof.
  destruct w as [g wl f c m cs]. unfold import_shapefile, log_calls.
  destruct (String.eqb_spec file_path "") as [->|Hne]; cbn [negb].
  - exists None, []. unfold_m. rewrite app_nil_r.
    split; [reflexivity|]. split; [|split; [done|split; [done|split; [done|]]]].
    + intros d path. split; [done | by intros [? _]].
    + split; [by right | constructor].
  - unfold_m. destruct (read_file lib file_path) as [d|e]; cbn.
    + exists (Some (d, file_path)), [CallReadFile file_path].
      split; [reflexivity|]. split; [|split; [done|split; [done|split; [done|]]]].
      * intros d' path. split; [by intros [= <- <-] | by intros (_ & [= <-] & ->)].
      * split; [by left; eexists|]. intros _. repeat constructor. cbn. tauto.
    + exists None, [CallReadFile file_path;
                    MsgCritical "Error"
                      (if is_IOError e then "Error reading the file."
                       else "An unexpected error occurred: " +:+ exn_str e)].
      split.
      { destruct (is_IOError e); cbn; rewrite <- app_assoc; reflexivity. }
      split; [|split; [done|split; [done|split]]].
      * intros d' path. split; [done | by intros (_ & ? & _)].
      * by intros e' _ [= <-].
      * split.
        -- intros Hall. exfalso.
           apply Forall_cons in Hall as [_ Hall]. apply Forall_cons in Hall as [Hbad _].
           by apply Hbad.
        -- intros [[? [=]]|?]; done.
Qed.

End Rendering.

Section OpenSuccess.

Variable lib : Collaborators.

(** X3.  When a path is chosen and the reader succeeds, Open puts the
    reader's dataset in the holder whatever was held before, shows
    "Opened file: <path>", re-renders (a subplot without labels that plots
    the new dataset, drawn on the canvas unless the renderer failed), and
    ends by enabling the five gated commands. *)
Theorem open_file_success
    (w : MainWindow) (file_path : string) (d : Dataset)
    (Hpath : file_path ≠ "") (Hread : read_file lib file_path = Ret d) :
  let w' := exec (open_file lib file_path) w in
  gdf w' = Some d
  ∧ welcome_label w' = "Opened file: " +:+ file_path
  ∧ (∀ a, enabled (menus w') a = true)
  ∧ ∃ ax es,
      figure w' = Some ax ∧ ax_labels ax = [] ∧ ax_listening ax = false
      ∧ new_calls w w'
        = [CallReadFile file_path; SetWelcomeText ("Opened file: " +:+ file_path);
           FigureClear; CallPlot d]
          ++ es ++ ((fun a => SetEnabled a true) <$> gated_actions)
      ∧ ((es = [CanvasDraw] ∧ canvas w' = Some ax ∧ ax_plotted ax = Some d)
         ∨ ((∃ e, es = [display_failed e]) ∧ canvas w' = canvas w
            ∧ (ax_plotted ax = None ∨ ax_plotted ax = Some d))).
Proof.
  destruct w as [g wl f c m cs]. cbn zeta.
  unfold open_file, import_shapefile, new_calls.
  destruct (String.eqb_spec file_path "") as [?|_]; [done|]. cbn [negb].
  unfold_m. rewrite Hread. cbn.
  match goal with |- context [display_gis_data lib ?w0] =>
    destruct (display_gis_data_held lib w0 d eq_refl)
      as (ax & cv & es & -> & Hl & Hc & Hcases)
  end.
  cbn. rewrite update_operations_menu_state_run. cbn.
  split; [done|]. split; [done|]. split; [by intros []|].
  exists ax, es. do 3 (split; [done|]). split.
  { rewrite <- !app_assoc. rewrite drop_app_length. reflexivity. }
  cbn in Hcases.
  destruct Hcases as [(-> & Hp & ->)|(-> & Hp & e & ->)]; [left | right]; repeat split; try done.
  by exists e.
Qed.

End OpenSuccess.

Lemma open_file_success_witness :
  "cities.shp" ≠ "" ∧ read_file sample_lib "cities.shp" = Ret cities
  ∧ gdf (exec (open_file sample_lib "cities.shp") gaps_window) = Some cities
  ∧ welcome_label (exec (open_file sample_lib "cities.shp") gaps_window)
    = "Opened file: cities.shp".
Proof.
  assert (Hne : "cities.shp" ≠ "") by discriminate.
  pose proof (open_file_success sample_lib gaps_window "cities.shp" cities Hne eq_refl)
    as (Hg & Hl & _).
  split; [exact Hne|]. split; [reflexivity|]. split; [exact Hg | exact Hl].
Defined.


(** ** Guards *)

Section Guards.

Variable lib : Collaborators.

(** X4.  With no dataset held, every handler that works on the dataset
    shows one message box and does nothing else: no library is called and
    the window is as before apart from the logged box.  Clip, the attribute
    table, Label-Features and [display_gis_data] warn "No GIS file is
    opened."; Projection-Info and Switch-Projection have no such guard and
    report the [AttributeError] of [None] (Switch-Projection after its
    input validation). *)
Theorem handlers_without_dataset (w : MainWindow) (Hnone : gdf w = None) :
  (∀ clip_path, exec (clip_data lib clip_path) w = record_call no_file_opened w)
  ∧ exec (show_attribute_table lib) w = record_call no_file_opened w
  ∧ (∀ field ok, exec (label_features lib field ok) w = record_call no_file_opened w)
  ∧ exec (display_gis_data lib) w = record_call no_file_opened w
  ∧ exec show_projection_info w
    = record_call
        (MsgCritical "Error"
           "Failed to get projection info: 'NoneType' object has no attribute 'crs'") w
  ∧ (∀ epsg_code n, isdigit epsg_code = true → py_int epsg_code = Ret n →
       exec (switch_projection lib epsg_code true) w
       = record_call
           (MsgWarning "Error"
              "Failed to switch projection: 'NoneType' object has no attribute 'to_crs'") w)
  ∧ (∀ epsg_code ok, ∃ title text,
       exec (switch_projection lib epsg_code ok) w = record_call (MsgWarning title text) w).
Proof.
  destruct w as [g wl f c m cs]. cbn in Hnone. subst g.
  split; [|split; [|split; [|split; [|split; [|split]]]]].
  - intros p. unfold clip_data. by unfold_m.
  - unfold show_attribute_table. by unfold_m.
  - intros field ok. unfold label_features. by unfold_m.
  - unfold display_gis_data. by unfold_m.
  - unfold show_projection_info. by unfold_m.
  - intros code n Hdig Hint. unfold switch_projection. rewrite Hdig. cbn [negb orb].
    unfold_m. rewrite Hint. reflexivity.
  - intros code ok. unfold switch_projection.
    destruct (negb ok || negb (isdigit code)); [unfold_m; by do 2 eexists|].
    unfold_m. destruct (py_int code) as [n|e]; cbn; by do 2 eexists.
Qed.

(** X5.  With a dataset held, a cancelled file dialog in Clip and a
    cancelled or empty choice of field in Label-Features leave the window
    exactly as it was: nothing is shown, called or logged. *)
Theorem cancelled_dialogs_change_nothing
    (w : MainWindow) (d : Dataset) (Hheld : gdf w = Some d) :
  exec (clip_data lib "") w = w
  ∧ (∀ field, exec (label_features lib field false) w = w)
  ∧ (∀ ok, exec (label_features lib "" ok) w = w).
Proof.
  destruct w as [g wl f c m cs]. cbn in Hheld. subst g.
  split; [|split].
  - unfold clip_data. by unfold_m.
  - intros field. unfold label_features. by unfold_m.
  - intros ok. unfold label_features. cbn [String.eqb negb]. rewrite andb_false_r. by unfold_m.
Qed.

End Guards.

Lemma handlers_without_dataset_witness :
  gdf init = None
  ∧ exec (clip_data sample_lib "mask.shp") init = record_call no_file_opened init
  ∧ exec (switch_projection sample_lib "3857" true) init
    = record_call
        (MsgWarning "Error"
           "Failed to switch projection: 'NoneType' object has no attribute 'to_crs'") init.
Proof.
  pose proof (handlers_without_dataset sample_lib init eq_refl)
    as (Hclip & _ & _ & _ & _ & Hswitch & _).
  split; [reflexivity|]. split; [exact (Hclip "mask.shp")|].
  exact (Hswitch "3857" 3857%N eq_refl eq_refl).
Defined.

Lemma cancelled_dialogs_change_nothing_witness :
  gdf cities_window = Some cities
  ∧ exec (clip_data sample_lib "") cities_window = cities_window
  ∧ exec (label_features sample_lib "name" false) cities_window = cities_window.
Proof.
  pose proof (cancelled_dialogs_change_nothing sample_lib cities_window cities eq_refl)
    as (Hclip & Hlabel & _).
  split; [reflexivity|]. split; [exact Hclip | exact (Hlabel "name")].
Defined.

(** ** The EPSG code *)

Lemma read_digits_app (acc : N) (p q : list Ascii.ascii) :
  read_digits acc (p ++ q) = read_digits (read_digits acc p) q.
Proof. apply fold_left_app. Qed.

Lemma pretty_N_char_decimal (x : N) :
  (x < 10)%N →
  is_decimal_char (pretty_N_char x) = true ∧ digit_value (pretty_N_char x) = x.
Proof.
  intros Hx.
  assert (Hcases : x ∈ [0; 1; 2; 3; 4; 5; 6; 7; 8; 9]%N).
  { rewrite !elem_of_cons. lia. }
  rewrite !elem_of_cons in Hcases.
  destruct Hcases as [->|[->|[->|[->|[->|[->|[->|[->|[->|[->|[]%elem_of_nil]]]]]]]]]];
    split; reflexivity.
Qed.

(** The characters [pretty] puts before [s] are decimal digits that read
    back as the number, with no leading zero. *)
Lemma pretty_N_go_digits (x : N) (s : string) :
  ∃ p, chars (pretty_N_go x s) = p ++ chars s
    ∧ forallb is_decimal_char p = true
    ∧ (∀ acc, read_digits acc p = (acc * 10 ^ N.of_nat (length p) + x)%N)
    ∧ ((0 < x)%N → p ≠ [])
    ∧ (x = 0%N → p = [])
    ∧ ((0 < x)%N → (10 ^ N.of_nat (length p) ≤ 10 * x)%N).
Proof.
  revert s. induction (N.lt_wf_0 x) as [x _ IH]. intros s.
  destruct (decide (0 < x)%N) as [Hpos|Hzero].
  - rewrite pretty_N_go_step by done.
    destruct (IH (x `div` 10)%N (N.div_lt x 10 Hpos eq_refl)
                (String (pretty_N_char (x `mod` 10)) s))
      as (p & Hp & Hdec & Hread & _ & Hzero & Hlow).
    assert (Hmod : (x `mod` 10 < 10)%N) by (apply N.mod_lt; lia).
    destruct (pretty_N_char_decimal _ Hmod) as [Hc Hv].
    exists (p ++ [pretty_N_char (x `mod` 10)]).
    split; [|split; [|split; [|split; [|split]]]].
    + rewrite Hp. cbn. by rewrite <- app_assoc.
    + rewrite forallb_app, Hdec. cbn. by rewrite Hc.
    + intros acc. rewrite read_digits_app, Hread. cbn. rewrite Hv.
      rewrite length_app. cbn.
      replace (N.of_nat (length p + 1)) with (N.succ (N.of_nat (length p))) by lia.
      rewrite N.pow_succ_r'.
      pose proof (N.div_mod' x 10). lia.
    + by intros _ ?%app_eq_nil%proj2.
    + lia.
    + intros _. rewrite length_app. cbn.
      replace (N.of_nat (length p + 1)) with (N.succ (N.of_nat (length p))) by lia.
      rewrite N.pow_succ_r'.
      pose proof (N.div_mod' x 10) as Hdm.
      destruct (decide (x `div` 10 = 0)%N) as [Hsmall|Hbig].
      * rewrite (Hzero Hsmall). cbn. lia.
      * assert (Hq : (0 < x `div` 10)%N) by lia. specialize (Hlow Hq). lia.
  - assert (x = 0%N) as -> by lia. exists []. rewrite pretty_N_go_0.
    split; [done|]. split; [done|]. split; [|split; [lia|split; [done|lia]]].
    intros acc. cbn. lia.
Qed.

(** A run of [k] decimal digits denotes a number below [10 ^ k]. *)
Lemma read_digits_bound (cs : list Ascii.ascii) :
  forallb is_decimal_char cs = true →
  ∀ acc, (read_digits acc cs < (acc + 1) * 10 ^ N.of_nat (length cs))%N.
Proof.
  induction cs as [|c cs IH]; intros Hdec acc.
  - cbn. lia.
  - cbn in Hdec. apply andb_true_iff in Hdec as [Hc Hcs].
    change (read_digits acc (c :: cs))
      with (read_digits (10 * acc + digit_value c) cs).
    specialize (IH Hcs (10 * acc + digit_value c)%N).
    assert (Hv : (digit_value c ≤ 9)%N).
    { unfold is_decimal_char in Hc. unfold digit_value.
      apply andb_true_iff in Hc as [_ Hhi%N.leb_le]. lia. }
    cbn [length].
    replace (N.of_nat (S (length cs))) with (N.succ (N.of_nat (length cs))) by lia.
    rewrite N.pow_succ_r'. nia.
Qed.

(** When [int] reads a text as [n], [int(f"{n}")] is [n] too (the numeral
    of [n] is no longer than the text), and the numeral passes [isdigit]. *)
Lemma py_int_pretty (s : string) (n : N) :
  py_int s = Ret n → py_int (pretty n) = Ret n ∧ isdigit (pretty n) = true.
Proof.
  intros Hint. unfold py_int in Hint.
  destruct (forallb is_decimal_char (chars s)) eqn:Hall; [|done].
  destruct (bool_decide (chars s = [])) eqn:Hempty; [done|]. cbn [negb andb] in Hint.
  destruct (length (chars s) <=? int_max_str_digits)%nat eqn:Hcap; [|done].
  apply Nat.leb_le in Hcap.
  injection Hint as Hn. change (read_digits 0 (chars s) = n) in Hn.
  pose proof (read_digits_bound _ Hall 0%N) as Hbound. rewrite Hn in Hbound.
  unfold pretty, pretty_N. destruct (decide (n = 0%N)) as [->|Hne]; [by split|].
  destruct (pretty_N_go_digits n "") as (p & Hp & Hdec & Hread & Hnil & _ & Hlow).
  change (chars "") with (@nil Ascii.ascii) in Hp. rewrite app_nil_r in Hp.
  assert (Hp' : p ≠ []) by (apply Hnil; lia).
  assert (Hlen : length p ≤ length (chars s)).
  { assert (Hlt : (10 ^ N.of_nat (length p)
                   < 10 ^ N.succ (N.of_nat (length (chars s))))%N).
    { rewrite N.pow_succ_r'. specialize (Hlow ltac:(lia)). lia. }
    apply N.pow_lt_mono_r_iff in Hlt; lia. }
  unfold py_int, isdigit. rewrite Hp, Hdec.
  rewrite bool_decide_eq_false_2 by done. cbn [negb andb].
  assert (Hcap' : (length p <=? int_max_str_digits)%nat = true)
    by (apply Nat.leb_le; lia).
  rewrite Hcap'.
  split.
  - f_equal. change (read_digits 0 p = n). rewrite Hread. lia.
  - destruct p as [|c p]; [done|].
    clear -Hdec. revert Hdec. generalize (c :: p). intros cs Hdec.
    induction cs as [|c' cs IH]; [done|]. cbn in *.
    apply andb_true_iff in Hdec as [Hc Hcs]. unfold is_digit_char. rewrite Hc. cbn.
    by apply IH.
Qed.

(** A numeral of more digits than the cap is refused by [int]. *)
Lemma py_int_over_cap (s : string) :
  int_max_str_digits < length (chars s) →
  ∃ e, py_int s = Raise e ∧ exn_cls e = ValueError.
Proof.
  intros Hlong. unfold py_int.
  destruct (forallb is_decimal_char (chars s) && negb (bool_decide (chars s = [])));
    [|by eexists].
  rewrite (proj2 (Nat.leb_gt _ _)) by done. by eexists.
Qed.

Section SwitchSuccess.

Variable lib : Collaborators.

(** X6.  On a text of digits that [int] reads as [n], with a dataset held
    and a reprojector that succeeds, Switch-Projection calls the
    reprojector once, first, with the canonical decimal numeral of [n]
    (leading zeros dropped; the numeral passes [isdigit] and reads back as
    [n]), puts the result in the holder, shows "Projection switched to
    EPSG:<numeral>" and re-renders: the figure has one subplot without
    labels that plots the new dataset or nothing.  The menu state is left
    alone. *)
Theorem switch_projection_reprojects
    (w : MainWindow) (epsg_code : string) (n : N) (d d' : Dataset)
    (Hdigits : isdigit epsg_code = true)
    (Hint : py_int epsg_code = Ret n)
    (Hheld : gdf w = Some d)
    (Hok : to_crs lib d (pretty n) = Ret d') :
  let w' := exec (switch_projection lib epsg_code true) w in
  gdf w' = Some d'
  ∧ welcome_label w' = "Projection switched to EPSG:" +:+ pretty n
  ∧ menus w' = menus w
  ∧ new_calls w w' !! 0%nat = Some (CallToCrs d (pretty n))
  ∧ Forall (fun e => ¬ reprojector_call e) (drop 1 (new_calls w w'))
  ∧ py_int (pretty n) = Ret n ∧ isdigit (pretty n) = true
  ∧ ∃ ax, figure w' = Some ax ∧ ax_labels ax = [] ∧ ax_listening ax = false
      ∧ (ax_plotted ax = Some d' ∨ ax_plotted ax = None).
Proof.
  destruct w as [g wl f c m cs]. cbn in Hheld. subst g. cbn zeta.
  unfold switch_projection, new_calls. rewrite Hdigits. cbn [negb orb].
  unfold_m. rewrite Hint. cbn. rewrite Hok. cbn.
  match goal with |- context [display_gis_data lib ?w0] =>
    destruct (display_gis_data_held lib w0 d' eq_refl)
      as (ax & cv & es & -> & Hl & Hc & Hcases)
  end.
  cbn. rewrite <- !app_assoc, drop_app_length. cbn.
  destruct (py_int_pretty epsg_code n Hint) as [Hback Hdig'].
  do 4 (split; [done|]). split; [|split; [done|split; [done|]]].
  - apply Forall_cons_2; [cbn; tauto|].
    do 2 (apply Forall_cons_2; [cbn; tauto|]).
    destruct Hcases as [(_ & _ & ->)|(_ & _ & e & ->)];
      (apply Forall_cons_2; [cbn; tauto|]); apply Forall_nil_2.
  - exists ax. do 3 (split; [done|]).
    destruct Hcases as [(_ & Hp & _)|(_ & [Hp|Hp] & _)]; auto.
Qed.

End SwitchSuccess.

Lemma switch_projection_reprojects_witness :
  isdigit "003857" = true ∧ py_int "003857" = Ret 3857%N
  ∧ gdf cities_window = Some cities
  ∧ to_crs sample_lib cities (pretty 3857%N) = Ret cities_3857
  ∧ gdf (exec (switch_projection sample_lib "003857" true) cities_window) = Some cities_3857
  ∧ welcome_label (exec (switch_projection sample_lib "003857" true) cities_window)
    = "Projection switched to EPSG:3857".
Proof.
  pose proof (switch_projection_reprojects sample_lib cities_window "003857" 3857%N
                cities cities_3857 eq_refl eq_refl eq_refl eq_refl) as (Hg & Hl & _).
  do 4 (split; [reflexivity|]). split; [exact Hg | exact Hl].
Defined.

(** ** Clip: failure and success *)

Section ClipOutcome.

Variable lib : Collaborators.

(** X7.  When the selected clip strategy raises (reading the clip file,
    clipping, opening the raster or slicing by its bounds), Clip shows
    "Failed to clip data: <e>" as its last call, after the one or two
    library calls it made, and leaves the holder, the figure, the canvas,
    the welcome label and the menu state as they were: nothing is
    re-rendered and no success message is shown. *)
Theorem clip_data_failure_reported
    (w : MainWindow) (d : Dataset) (clip_path : string) (e : exn)
    (Hheld : gdf w = Some d)
    (Hfail : (endswith_any clip_path [".shp"; ".geojson"] = true
              ∧ vector_clip lib d clip_path = Raise e)
             ∨ (endswith_any clip_path [".tif"; ".tiff"] = true
                ∧ raster_bounds_clip lib d clip_path = Raise e)) :
  ∃ es, exec (clip_data lib clip_path) w = log_calls (es ++ [clip_failed e]) w
    ∧ Forall library_call es
    ∧ (length es = 1 ∨ length es = 2)
    ∧ gdf (exec (clip_data lib clip_path) w) = Some d
    ∧ figure (exec (clip_data lib clip_path) w) = figure w
    ∧ canvas (exec (clip_data lib clip_path) w) = canvas w.
Proof.
  destruct Hfail as [[Hv Hraise]|[Hr Hraise]].
  - rewrite (clip_data_vector_run lib w d clip_path Hheld Hv).
    unfold vector_clip in Hraise.
    destruct (read_file lib clip_path) as [clip_gdf|e1].
    + rewrite Hraise. exists [CallReadFile clip_path; CallClip d clip_gdf].
      repeat split; auto. repeat constructor.
    + injection Hraise as ->. exists [CallReadFile clip_path].
      repeat split; auto. repeat constructor.
  - rewrite (clip_data_raster_run lib w d clip_path Hheld Hr).
    unfold raster_bounds_clip in Hraise.
    destruct (raster_bounds lib clip_path) as [bbox|e1].
    + rewrite Hraise. exists [CallRasterOpen clip_path; CallCx d bbox].
      repeat split; auto. repeat constructor.
    + injection Hraise as ->. exists [CallRasterOpen clip_path].
      repeat split; auto. repeat constructor.
Qed.

(** X8.  When the selected clip strategy returns [d'], Clip puts [d'] in
    the holder, re-renders and shows "Data clipped successfully." as its
    last call, also when the re-rendering failed and was reported just
    before.  The figure has one subplot without labels that plots [d'] or
    nothing; the welcome label and the menu state are left alone. *)
Theorem clip_data_success
    (w : MainWindow) (d d' : Dataset) (clip_path : string)
    (Hheld : gdf w = Some d)
    (Hclip : (endswith_any clip_path [".shp"; ".geojson"] = true
              ∧ vector_clip lib d clip_path = Ret d')
             ∨ (endswith_any clip_path [".tif"; ".tiff"] = true
                ∧ raster_bounds_clip lib d clip_path = Ret d')) :
  let w' := exec (clip_data lib clip_path) w in
  gdf w' = Some d'
  ∧ welcome_label w' = welcome_label w ∧ menus w' = menus w
  ∧ last (calls w') = Some clip_succeeded
  ∧ (∃ ax, figure w' = Some ax ∧ ax_labels ax = [] ∧ ax_listening ax = false
       ∧ (ax_plotted ax = Some d' ∨ ax_plotted ax = None))
  ∧ (canvas w' = figure w' ∨ canvas w' = canvas w).
Proof.
  assert (Hrun : ∃ pre, exec (clip_data lib clip_path) w
                        = finish_clip lib (exec (set_gdf (Some d')) (log_calls pre w))).
  { destruct Hclip as [[Hv Hret]|[Hr Hret]].
    - rewrite (clip_data_vector_run lib w d clip_path Hheld Hv).
      unfold vector_clip in Hret.
      destruct (read_file lib clip_path) as [clip_gdf|e1]; [|done].
      rewrite Hret. by eexists.
    - rewrite (clip_data_raster_run lib w d clip_path Hheld Hr).
      unfold raster_bounds_clip in Hret.
      destruct (raster_bounds lib clip_path) as [bbox|e1]; [|done].
      rewrite Hret. by eexists. }
  destruct Hrun as [pre Hrun]. cbn zeta. rewrite Hrun. clear Hrun.
  unfold finish_clip, exec.
  destruct w as [g wl f c m cs]. unfold log_calls, set_gdf, modify. cbn.
  match goal with |- context [display_gis_data lib ?w0] =>
    destruct (display_gis_data_held lib w0 d' eq_refl)
      as (ax & cv & es & -> & Hl & Hc & Hcases)
  end.
  cbn. do 3 (split; [done|]). split; [by rewrite last_snoc|].
  cbn in Hcases. split.
  - exists ax. do 3 (split; [done|]).
    destruct Hcases as [(_ & Hp & _)|(_ & [Hp|Hp] & _)]; auto.
  - destruct Hcases as [(-> & _)|(-> & _)]; auto.
Qed.

End ClipOutcome.

Lemma clip_data_failure_reported_witness :
  gdf gaps_window = Some gaps
  ∧ vector_clip sample_lib gaps "mask.shp" = Raise (Exn OtherException "clip failed")
  ∧ ∃ es, exec (clip_data sample_lib "mask.shp") gaps_window
          = log_calls (es ++ [clip_failed (Exn OtherException "clip failed")]) gaps_window.
Proof.
  destruct (clip_data_failure_reported sample_lib gaps_window gaps "mask.shp"
              (Exn OtherException "clip failed") eq_refl (or_introl (conj eq_refl eq_refl)))
    as (es & Hrun & _).
  split; [reflexivity|]. split; [reflexivity|]. by exists es.
Defined.

Lemma clip_data_success_witness :
  gdf cities_window = Some cities
  ∧ raster_bounds_clip sample_lib cities "dem.tif" = Ret cities_clipped
  ∧ gdf (exec (clip_data sample_lib "dem.tif") cities_window) = Some cities_clipped
  ∧ last (calls (exec (clip_data sample_lib "dem.tif") cities_window)) = Some clip_succeeded.
Proof.
  pose proof (clip_data_success sample_lib cities_window cities cities_clipped "dem.tif"
                eq_refl (or_intror (conj eq_refl eq_refl))) as (Hg & _ & _ & Hlast & _).
  split; [reflexivity|]. split; [reflexivity|]. split; [exact Hg | exact Hlast].
Defined.

(** ** Label features: success and plot failure *)

Section Labelling.

Variable lib : Collaborators.





(** X10.  When the plot raises, Label-Features reports "Failed to display
    labels: <e>" and stops: the figure, already cleared, is left with a
    blank subplot (whatever it showed or labelled before is gone), while
    the canvas, not redrawn, the holder, the welcome label and the menu
    state are as before. *)
Theorem label_features_plot_failure
    (w : MainWindow) (d : Dataset) (field : string) (e : exn)
    (Hheld : gdf w = Some d) (Hfield : field ≠ "")
    (Hplot : gdf_plot lib d = Raise e) :
  exec (label_features lib field true) w
  = mkWindow (gdf w) (welcome_label w) (Some fresh_axes) (canvas w) (menus w)
      (calls w ++ [FigureClear; CallPlot d;
                   MsgCritical "Error" ("Failed to display labels: " +:+ exn_str e)]).
Proof.
  destruct w as [g wl f c m cs]. cbn in Hheld. subst g.
  unfold label_features, plot.
  destruct (String.eqb_spec field "") as [?|_]; [done|]. cbn [negb andb].
  unfold_m. rewrite Hplot. cbn. by rewrite <- !app_assoc.
Qed.

End Labelling.


Lemma label_features_plot_failure_witness :
  gdf cities_window = Some cities ∧ "name" ≠ ""
  ∧ gdf_plot no_plot_lib cities = Raise (Exn OtherException "no artists to plot")
  ∧ figure (exec (label_features no_plot_lib "name" true) cities_window) = Some fresh_axes
  ∧ canvas (exec (label_features no_plot_lib "name" true) cities_window)
    = canvas cities_window.
Proof.
  assert (Hne : "name" ≠ "") by discriminate.
  pose proof (label_features_plot_failure no_plot_lib cities_window cities "name"
                (Exn OtherException "no artists to plot") eq_refl Hne eq_refl) as Hrun.
  split; [reflexivity|]. split; [exact Hne|]. split; [reflexivity|].
  rewrite Hrun. split; reflexivity.
Defined.

(** ** What every command does to the holder and the figure *)

Section Runs.

Variable lib : Collaborators.

Ltac held_display d' :=
  match goal with |- context [display_gis_data lib ?w0] =>
    let ax := fresh "ax" in let Hcases := fresh "Hcases" in
    let Hoff := fresh "Hoff" in
    destruct (display_gis_data_held lib w0 d' eq_refl)
      as (ax & ? & ? & -> & _ & Hoff & Hcases);
    cbn; eexists; (split; [reflexivity|]); right; left; exists d', ax; cbn;
    (split; [done|]); (split; [done|]);
    (split; [|by rewrite Hoff]);
    destruct Hcases as [(_ & ? & _)|(_ & [?|?] & _)]; auto
  end.

Ltac unchanged := eexists; (split; [reflexivity|]); left; done.

Lemma open_file_runs (w : MainWindow) (file_path : string) :
  ∃ w', open_file lib file_path w = (Ret tt, w') ∧ step_shape w w'.
Proof.
  destruct w as [g wl f c m cs]. unfold open_file, import_shapefile.
  assert (Hclear : ∀ w0, ∃ w',
             (let (o, w1) := clear_canvas w0 in
              match o with
              | Ret _ => update_operations_menu_state w1
              | Raise e => (Raise e, w1)
              end) = (Ret tt, w')
             ∧ gdf w' = None ∧ figure w' = None ∧ canvas w' = None).
  { intros w0. rewrite clear_canvas_run, update_operations_menu_state_run. by eexists. }
  destruct (negb (String.eqb file_path "")).
  - unfold_m. destruct (read_file lib file_path) as [d|e]; cbn.
    + match goal with |- context [display_gis_data lib ?w0] =>
        destruct (display_gis_data_held lib w0 d eq_refl)
          as (ax & ? & ? & -> & _ & Hoff & Hcases)
      end.
      cbn. rewrite update_operations_menu_state_run. cbn.
      eexists. split; [reflexivity|]. right. left. exists d, ax. cbn.
      split; [done|]. split; [done|]. split; [|by rewrite Hoff].
      destruct Hcases as [(_ & ? & _)|(_ & [?|?] & _)]; auto.
    + destruct (is_IOError e); cbn;
        match goal with |- context [clear_canvas ?w0] =>
          destruct (Hclear w0) as (w' & -> & ?)
        end; exists w'; (split; [reflexivity|]); right; right; done.
  - unfold_m.
    match goal with |- context [clear_canvas ?w0] =>
      destruct (Hclear w0) as (w' & -> & ?)
    end. exists w'. split; [reflexivity|]. right; right; done.
Qed.

Lemma show_projection_info_runs (w : MainWindow) :
  ∃ w', show_projection_info w = (Ret tt, w') ∧ step_shape w w'.
Proof.
  destruct w as [[d|] wl f c m cs]; unfold show_projection_info; unfold_m; unchanged.
Qed.

Lemma switch_projection_runs (w : MainWindow) (epsg_code : string) (ok : bool) :
  ∃ w', switch_projection lib epsg_code ok w = (Ret tt, w') ∧ step_shape w w'.
Proof.
  destruct w as [g wl f c m cs]. unfold switch_projection.
  destruct (negb ok || negb (isdigit epsg_code)); [unfold_m; unchanged|].
  unfold_m. destruct (py_int epsg_code) as [n|e]; cbn; [|unchanged].
  destruct g as [d|]; cbn; [|unchanged].
  destruct (to_crs lib d (pretty n)) as [d'|e]; cbn; [|unchanged].
  held_display d'.
Qed.

Lemma clip_data_runs (w : MainWindow) (clip_path : string) :
  ∃ w', clip_data lib clip_path w = (Ret tt, w') ∧ step_shape w w'.
Proof.
  destruct w as [[d|] wl f c m cs]; unfold clip_data; [|unfold_m; unchanged].
  destruct (endswith_any clip_path [".shp"; ".geojson"]);
    [|destruct (endswith_any clip_path [".tif"; ".tiff"])];
    (destruct (String.eqb clip_path ""); [unfold_m; unchanged|]); unfold_m.
  - destruct (read_file lib clip_path) as [clip_gdf|e]; cbn; [|unchanged].
    destruct (gdf_clip lib d clip_gdf) as [d'|e]; cbn; [|unchanged].
    held_display d'.
  - destruct (raster_bounds lib clip_path) as [bbox|e]; cbn; [|unchanged].
    destruct (gdf_cx lib d bbox) as [d'|e]; cbn; [|unchanged].
    held_display d'.
  - held_display d.
Qed.

Lemma show_attribute_table_runs (w : MainWindow) :
  ∃ o w', show_attribute_table lib w = (o, w') ∧ step_shape w w'
          ∧ ((∀ d, gdf w = Some d → rectangular d) → o = Ret tt).
Proof.
  destruct w as [[d|] wl f c m cs]; unfold show_attribute_table; unfold_m.
  - destruct (attribute_table lib d) as [t|e] eqn:Ht; cbn.
    + do 2 eexists. split; [reflexivity|]. split; [by left | done].
    + do 2 eexists. split; [reflexivity|]. split; [by left|].
      intros Hrect. exfalso.
      destruct (fill_rows_spec lib d (seq 0 (len d)) (Hrect d eq_refl)) with
        (t := mkTable (length (columns d)) (len d) (columns d) ∅) as (t & Hrun & _);
        try done.
      * apply Forall_forall. intros i Hi. apply elem_of_seq in Hi. lia.
      * intros i j [? Hsome]. cbn in Hsome. by rewrite lookup_empty in Hsome.
      * unfold attribute_table in Ht. congruence.
  - do 2 eexists. split; [reflexivity|]. split; [by left | done].
Qed.

(** The labelling loop only adds labels, one per row when it gets through. *)
Lemma label_rows_adds (d : Dataset) (field : string) (rs : list (list Value))
    (w : MainWindow) :
  is_Some (figure w) →
  ∃ o ls, label_rows lib d field rs w = (o, add_labels ls w)
          ∧ (o = Ret tt → length ls = length rs).
Proof.
  revert w. induction rs as [|row rs IH]; intros w Hfig.
  - exists (Ret tt), []. by rewrite add_labels_nil.
  - destruct (row_label lib d field row) as [l|e] eqn:Hl.
    + rewrite (label_rows_step lib d field row rs l w Hfig Hl).
      destruct (IH (add_labels [l] w)) as (o & ls & -> & Hlen).
      { destruct Hfig as [ax Hax]. unfold add_labels. rewrite Hax. by eexists. }
      exists o, (l :: ls). rewrite add_labels_cons. split; [done|].
      intros Ho. cbn. f_equal. by apply Hlen.
    + rewrite (label_rows_raise lib d field row rs e w Hl).
      exists (Raise e), []. by rewrite add_labels_nil.
Qed.

Lemma label_features_runs (w : MainWindow) (field : string) (ok : bool) :
  ∃ w', label_features lib field ok w = (Ret tt, w') ∧ step_shape w w'
        ∧ gdf w' = gdf w ∧ welcome_label w' = welcome_label w ∧ menus w' = menus w
        ∧ (canvas w' = canvas w ∨ canvas w' = figure w').
Proof.
  destruct w as [[d|] wl f c m cs]; unfold label_features, plot.
  2: { unfold_m. eexists. split; [reflexivity|]. split; [by left|]. cbn. auto. }
  destruct (ok && negb (String.eqb field "")).
  2: { unfold_m. eexists. split; [reflexivity|]. split; [by left|]. cbn. auto. }
  unfold_m.
  destruct (gdf_plot lib d) as [v|e]; cbn.
  2: { eexists. split; [reflexivity|]. split; [|cbn; auto].
       right. left. exists d, fresh_axes. cbn. do 3 (split; [auto|]). done. }
  match goal with |- context [label_rows lib d field (rows d) ?w0] =>
    destruct (label_rows_adds d field (rows d) w0) as (o & ls & -> & Hlen); [by eexists|]
  end.
  unfold add_labels. cbn. destruct o as [[]|e]; cbn;
    (eexists; split; [reflexivity|]; split; [|cbn; auto]);
    right; left; eexists d, _; cbn; do 3 (split; [auto|]); [|done].
  intros _. split; [done|]. unfold update_label_visibility. cbn.
  rewrite update_labels_length. by apply Hlen.
Qed.

(** Every command, as [handle] dispatches it. *)
Lemma handle_runs (c : Command) (w : MainWindow) :
  ∃ o w', handle lib c w = (o, w') ∧ step_shape w w'
          ∧ ((c = CmdAttributeTable → ∀ d, gdf w = Some d → rectangular d) → o = Ret tt).
Proof.
  destruct c as [path| |code ok|path| |field ok]; cbn [handle].
  - destruct (open_file_runs w path) as (w' & -> & ?). by exists (Ret tt), w'.
  - destruct (show_projection_info_runs w) as (w' & -> & ?). by exists (Ret tt), w'.
  - destruct (switch_projection_runs w code ok) as (w' & -> & ?). by exists (Ret tt), w'.
  - destruct (clip_data_runs w path) as (w' & -> & ?). by exists (Ret tt), w'.
  - destruct (show_attribute_table_runs w) as (o & w' & -> & ? & Ho).
    exists o, w'. split; [done|]. split; [done|]. intros Hrect. apply Ho. by apply Hrect.
  - destruct (label_features_runs w field ok) as (w' & -> & ? & _). by exists (Ret tt), w'.
Qed.

End Runs.

(** ** Commands that only read, and exceptions *)

Section ReadOnly.

Variable lib : Collaborators.

(** X11.  Projection-Info and the attribute table never change the holder,
    the welcome label, the figure, the canvas or the menu state, with or
    without a dataset, and make at most one call (their dialog or a
    message box).  Label-Features, whatever its outcome, never changes the
    holder, the welcome label or the menu state, and the canvas either
    stays as it was or shows the figure the handler built. *)
Theorem read_only_commands (w : MainWindow) :
  (∀ w', w' = exec show_projection_info w ∨ w' = exec (show_attribute_table lib) w →
         gdf w' = gdf w ∧ welcome_label w' = welcome_label w
         ∧ figure w' = figure w ∧ canvas w' = canvas w ∧ menus w' = menus w
         ∧ length (new_calls w w') ≤ 1)
  ∧ (∀ field ok,
       gdf (exec (label_features lib field ok) w) = gdf w
       ∧ welcome_label (exec (label_features lib field ok) w) = welcome_label w
       ∧ menus (exec (label_features lib field ok) w) = menus w
       ∧ (canvas (exec (label_features lib field ok) w) = canvas w
          ∨ canvas (exec (label_features lib field ok) w)
            = figure (exec (label_features lib field ok) w))).
Proof.
  split.
  - intros w' [-> | ->]; destruct w as [[d|] wl f c m cs];
      unfold show_projection_info, show_attribute_table, new_calls; unfold_m;
      try destruct (attribute_table lib d); cbn;
      rewrite ?drop_app_length, ?drop_all; cbn; repeat split; lia.
  - intros field ok. unfold exec.
    destruct (label_features_runs lib w field ok) as (w' & -> & _ & ? & ? & ? & ?).
    done.
Qed.

(** X12.  No exception escapes a command: Open, Projection-Info,
    Switch-Projection, Clip and Label-Features return normally whatever
    the libraries and the user do, and so does the attribute table, the
    one handler without an [except] clause, on a frame whose rows all have
    one cell per column. *)
Theorem handlers_never_raise
    (c : Command) (w : MainWindow)
    (Hrect : c = CmdAttributeTable → ∀ d, gdf w = Some d → rectangular d) :
  fst (handle lib c w) = Ret tt.
Proof.
  destruct (handle_runs lib c w) as (o & w' & -> & _ & Ho). cbn. by apply Ho.
Qed.

Lemma step_shape_follows (w w' : MainWindow) :
  step_shape w w' → figure_follows_holder w → figure_follows_holder w'.
Proof.
  intros [(Hg & Hf & Hc)|[(d' & ax & Hg & Hf & Hp)|(Hg & Hf & Hc)]] [Hnone Hplot].
  - split.
    + rewrite Hg, Hf, Hc. exact Hnone.
    + intros ax d. rewrite Hg, Hf. apply Hplot.
  - destruct Hp as [Hp _]. split.
    + by rewrite Hg.
    + intros ax0 d. rewrite Hf, Hg. intros [= <-] Hd.
      destruct Hp as [Hp|Hp]; congruence.
  - split; [done|]. intros ax d. by rewrite Hf.
Qed.

End ReadOnly.

(** ** Reachable windows *)

(** X13.  In every window the program reaches from [MainWindow.__init__]
    by any sequence of commands, with any answers of the user and any
    answers of the libraries, which may differ from one command to the
    next, each of the five gated commands is enabled exactly when a dataset
    is held. *)
Theorem reachable_enabled_iff_dataset
    (w : MainWindow) (Hreach : reachable w) (a : Action) :
  enabled (menus w) a = true ↔ is_Some (gdf w).
Proof.
  assert (Hagree : menus_agree w).
  { induction Hreach as [|lib w c _ IH]; [apply init_menus_agree|].
    by apply handle_preserves_menus_agree. }
  rewrite (Hagree a), bool_decide_eq_true. apply not_eq_None_Some.
Qed.

(** X14.  In every window the program reaches, with libraries that may
    answer differently from one command to the next, the figure plots the
    held dataset or nothing, never another dataset, and when no dataset is
    held the figure and the canvas are empty. *)
Theorem reachable_figure_follows_holder
    (w : MainWindow) (Hreach : reachable w) :
  (gdf w = None → figure w = None ∧ canvas w = None)
  ∧ (∀ ax d, figure w = Some ax → ax_plotted ax = Some d → gdf w = Some d).
Proof.
  change (figure_follows_holder w).
  induction Hreach as [|lib w c _ IH].
  - split; [done|]. intros ax d. by cbn.
  - eapply step_shape_follows; [|exact IH].
    destruct (handle_runs lib c w) as (o & w' & Hrun & Hshape & _).
    unfold exec. by rewrite Hrun.
Qed.

Lemma handlers_never_raise_witness :
  (CmdAttributeTable = CmdAttributeTable → ∀ d, gdf cities_window = Some d → rectangular d)
  ∧ fst (handle sample_lib CmdAttributeTable cities_window) = Ret tt.
Proof.
  assert (Hrect : CmdAttributeTable = CmdAttributeTable →
                  ∀ d, gdf cities_window = Some d → rectangular d).
  { intros _ d [= <-]. exact cities_rectangular. }
  split; [exact Hrect|].
  exact (handlers_never_raise sample_lib CmdAttributeTable cities_window Hrect).
Defined.

Lemma reachable_enabled_iff_dataset_witness :
  reachable (exec (handle offline_lib (CmdOpen "cities.shp"))
               (exec (handle sample_lib (CmdOpen "cities.shp")) init))
  ∧ (enabled (menus (exec (handle offline_lib (CmdOpen "cities.shp"))
                       (exec (handle sample_lib (CmdOpen "cities.shp")) init))) Clip = true
     ↔ is_Some (gdf (exec (handle offline_lib (CmdOpen "cities.shp"))
                       (exec (handle sample_lib (CmdOpen "cities.shp")) init)))).
Proof.
  assert (Hreach : reachable (exec (handle offline_lib (CmdOpen "cities.shp"))
                                (exec (handle sample_lib (CmdOpen "cities.shp")) init)))
    by (do 2 apply reachable_step; apply reachable_init).
  split; [exact Hreach|].
  exact (reachable_enabled_iff_dataset _ Hreach Clip).
Defined.

Lemma reachable_figure_follows_holder_witness :
  reachable
    (exec (handle no_plot_lib (CmdSwitchProjection "3857" true))
       (exec (handle sample_lib (CmdOpen "cities.shp")) init))
  ∧ (∀ ax d,
       figure (exec (handle no_plot_lib (CmdSwitchProjection "3857" true))
                 (exec (handle sample_lib (CmdOpen "cities.shp")) init)) = Some ax →
       ax_plotted ax = Some d →
       gdf (exec (handle no_plot_lib (CmdSwitchProjection "3857" true))
              (exec (handle sample_lib (CmdOpen "cities.shp")) init)) = Some d).
Proof.
  assert (Hreach : reachable
                     (exec (handle no_plot_lib (CmdSwitchProjection "3857" true))
                        (exec (handle sample_lib (CmdOpen "cities.shp")) init)))
    by (do 2 apply reachable_step; apply reachable_init).
  split; [exact Hreach|].
  exact (proj2 (reachable_figure_follows_holder _ Hreach)).
Defined.

(** ** The listener, the view and the toolbar *)

Lemma step_shape_listener (w w' : MainWindow) :
  step_shape w w' → listener_means_labelled w → listener_means_labelled w'.
Proof.
  intros [(Hg & Hf & Hc)|[(d' & ax & Hg & Hf & _ & Hon)|(Hg & Hf & Hc)]] Hinv ax0.
  - rewrite Hf, Hg. apply Hinv.
  - rewrite Hf, Hg. intros [= <-] Hlisten. exists d'. by destruct (Hon Hlisten).
  - by rewrite Hf.
Qed.

(** X15.  In every window the program reaches, with libraries that may
    answer differently from one command to the next, a figure whose view
    listener is connected plots the held dataset and carries exactly one
    label per feature of it: the culling callback never runs over a partial
    labelling or over the labels of another dataset. *)
Theorem reachable_listener_means_labelled
    (w : MainWindow) (ax : Axes)
    (Hreach : reachable w)
    (Hfigure : figure w = Some ax) (Hlistening : ax_listening ax = true) :
  ∃ d, gdf w = Some d ∧ ax_plotted ax = Some d ∧ length (ax_labels ax) = len d.
Proof.
  assert (Hinv : listener_means_labelled w); [|by apply Hinv].
  clear ax Hfigure Hlistening.
  induction Hreach as [|lib w c _ IH]; [by intros ax|].
  eapply step_shape_listener; [|exact IH].
  destruct (handle_runs lib c w) as (o & w' & Hrun & Hshape & _).
  unfold exec. by rewrite Hrun.
Qed.

Lemma reachable_listener_means_labelled_witness :
  reachable
    (exec (handle sample_lib (CmdLabelFeatures "name" true))
       (exec (handle no_plot_lib (CmdOpen "cities.shp")) init))
  ∧ ∃ ax d,
      figure (exec (handle sample_lib (CmdLabelFeatures "name" true))
                (exec (handle no_plot_lib (CmdOpen "cities.shp")) init)) = Some ax
      ∧ ax_listening ax = true
      ∧ ax_plotted ax = Some d ∧ length (ax_labels ax) = len d.
Proof.
  assert (Hreach : reachable
                     (exec (handle sample_lib (CmdLabelFeatures "name" true))
                        (exec (handle no_plot_lib (CmdOpen "cities.shp")) init)))
    by (do 2 apply reachable_step; apply reachable_init).
  split; [exact Hreach|].
  destruct (reachable_listener_means_labelled _
              (mkAxes (Some cities) (mkView 1 9 1 5)
                 [mkLabel (mkPoint 1 1) "A" true; mkLabel (mkPoint 5 5) "B" true;
                  mkLabel (mkPoint 9 2) "C" true] true)
              Hreach ltac:(vm_compute; reflexivity) eq_refl) as (d & _ & Hp & Hn).
  eexists _, d. split; [vm_compute; reflexivity|]. split; [reflexivity|]. by split.
Defined.

(** X16.  A pan or zoom to the view [v] on axes whose listener is connected
    keeps what is plotted and every label's place, centroid and text, and
    leaves a label visible exactly when its centroid lies in the closed
    rectangle of [v]; a second notification for the same view changes
    nothing.  On axes without listener the labels are not touched. *)
Theorem view_changed_culls (ax : Axes) (v : ViewRectangle) :
  ax_view (view_changed v ax) = v
  ∧ ax_plotted (view_changed v ax) = ax_plotted ax
  ∧ length (ax_labels (view_changed v ax)) = length (ax_labels ax)
  ∧ view_changed v (view_changed v ax) = view_changed v ax
  ∧ (ax_listening ax = false → ax_labels (view_changed v ax) = ax_labels ax)
  ∧ (ax_listening ax = true →
     ∀ i l, ax_labels ax !! i = Some l →
       ∃ l', ax_labels (view_changed v ax) !! i = Some l'
         ∧ la_centroid l' = la_centroid l ∧ la_text l' = la_text l
         ∧ (la_visible l' = true ↔ in_view v (la_centroid l))).
Proof.
  destruct ax as [p v0 ls [|]]; unfold view_changed; cbn.
  - split; [done|]. split; [done|]. split; [apply update_labels_length|].
    split; [|split; [done|]].
    + pose proof (update_label_visibility_idempotent (mkAxes p v ls true)) as Hid.
      unfold update_label_visibility in Hid. cbn in Hid. exact Hid.
    + intros _ i l Hl. rewrite update_labels_lookup, Hl. cbn.
      eexists. split; [reflexivity|]. cbn. repeat split; by apply visible_in_view.
  - repeat split; done.
Qed.

Lemma view_changed_culls_witness :
  ax_listening culler_axes = true
  ∧ culler_axes.(ax_labels) !! 1%nat = Some inner_anchor
  ∧ ∃ l', ax_labels (view_changed (mkView 3 8 0 10) culler_axes) !! 1%nat = Some l'
      ∧ (la_visible l' = true ↔ in_view (mkView 3 8 0 10) (la_centroid inner_anchor)).
Proof.
  pose proof (view_changed_culls culler_axes (mkView 3 8 0 10)) as (_ & _ & _ & _ & _ & Hcull).
  destruct (Hcull eq_refl 1%nat inner_anchor eq_refl) as (l' & Hl & _ & _ & Hv).
  split; [reflexivity|]. split; [reflexivity|]. by exists l'.
Defined.

Arguments icon_paths : simpl never.

(** X17.  [_update_icons] keeps the number, the order and the texts of the
    toolbar actions; an action whose text is a key of [_icon_paths] gets
    the icon of that key, any other action (a separator, say) keeps its
    icon; running it again changes nothing. *)
Theorem update_icons_only_named (actions : list ToolAction) :
  ta_text <$> update_icons actions = ta_text <$> actions
  ∧ update_icons (update_icons actions) = update_icons actions
  ∧ ∀ i action, actions !! i = Some action →
      ∃ action', update_icons actions !! i = Some action'
        ∧ ta_text action' = ta_text action
        ∧ (∀ icon_path, icon_paths !! ta_text action = Some icon_path →
                        ta_icon action' = icon_path)
        ∧ (icon_paths !! ta_text action = None → action' = action).
Proof.
  split; [|split].
  - induction actions as [|a actions IH]; [done|]. cbn.
    destruct (icon_paths !! ta_text a); cbn; f_equal; exact IH.
  - induction actions as [|a actions IH]; [done|]. cbn.
    destruct (icon_paths !! ta_text a) as [p|] eqn:Hp; cbn; rewrite Hp; f_equal; exact IH.
  - induction actions as [|a actions IH]; intros i action Hi; [done|]. cbn.
    destruct i as [|i]; cbn in Hi.
    + injection Hi as <-.
      destruct (icon_paths !! ta_text a) as [p|] eqn:Hp; cbn;
        eexists; (split; [reflexivity|]); cbn; repeat split; congruence.
    + destruct (IH i action Hi) as (action' & Hl & ?).
      exists action'. split; [|done].
      by destruct (icon_paths !! ta_text a).
Qed.

Lemma update_icons_only_named_witness :
  stock_toolbar !! 4%nat = Some (mkToolAction "Pan" "move")
  ∧ update_icons stock_toolbar !! 4%nat = Some (mkToolAction "Pan" "icons\pan.png")
  ∧ stock_toolbar !! 3%nat = Some (mkToolAction "" "")
  ∧ ∃ action', update_icons stock_toolbar !! 3%nat = Some action'
      ∧ action' = mkToolAction "" "".
Proof.
  pose proof (update_icons_only_named stock_toolbar) as (_ & _ & Hnamed).
  destruct (Hnamed 3%nat (mkToolAction "" "") eq_refl) as (action' & Hl & _ & _ & Hkeep).
  split; [reflexivity|]. split; [vm_compute; reflexivity|]. split; [reflexivity|].
  exists action'. split; [exact Hl|]. apply Hkeep. vm_compute. reflexivity.
Defined.

(** ** The suffix test of Clip *)

Lemma length_append (a b : string) :
  String.length (a +:+ b) = String.length a + String.length b.
Proof. induction a as [|c a IH]; [done|]. rewrite append_cons. cbn. by rewrite IH. Qed.

Lemma substring_append (a b : string) :
  String.substring (String.length a) (String.length b) (a +:+ b) = b.
Proof.
  induction a as [|c a IH]; [apply substring_whole|].
  rewrite append_cons. cbn. exact IH.
Qed.

Lemma endswith_append (stem suffix : string) : endswith (stem +:+ suffix) suffix = true.
Proof.
  unfold endswith. rewrite length_append. apply andb_true_iff. split.
  - apply Nat.leb_le. lia.
  - replace (String.length stem + String.length suffix - String.length suffix)
      with (String.length stem) by lia.
    rewrite substring_append. apply String.eqb_refl.
Qed.

Lemma endswith_stem (s suffix : string) :
  endswith s suffix = true → ∃ stem, s = stem +:+ suffix.
Proof.
  unfold endswith. intros [Hlen Heq%String.eqb_eq]%andb_true_iff.
  apply Nat.leb_le in Hlen.
  exists (String.substring 0 (String.length s - String.length suffix) s).
  rewrite <- Heq at 2.
  rewrite (substring_split s (String.length s - String.length suffix)) at 1 by lia.
  do 2 f_equal. lia.
Qed.

(** X18.  Clip takes the vector path exactly for the paths of the form
    stem + ".shp" or stem + ".geojson", and, among the others, the raster
    path exactly for stem + ".tif" or stem + ".tiff"; the comparison is on
    the characters as written.  No path passes both tests, and a
    cancelled dialog (the empty path) passes neither. *)
Theorem clip_suffix_tests (clip_path : string) :
  (endswith_any clip_path [".shp"; ".geojson"] = true ↔
   ∃ stem, clip_path = stem +:+ ".shp" ∨ clip_path = stem +:+ ".geojson")
  ∧ (endswith_any clip_path [".tif"; ".tiff"] = true ↔
     ∃ stem, clip_path = stem +:+ ".tif" ∨ clip_path = stem +:+ ".tiff")
  ∧ ¬ (endswith_any clip_path [".shp"; ".geojson"] = true
       ∧ endswith_any clip_path [".tif"; ".tiff"] = true)
  ∧ (clip_path = "" →
     endswith_any clip_path [".shp"; ".geojson"; ".tif"; ".tiff"] = false).
Proof.
  assert (Htwo : ∀ a b, endswith_any clip_path [a; b] = true ↔
                        ∃ stem, clip_path = stem +:+ a ∨ clip_path = stem +:+ b).
  { intros a b. unfold endswith_any. cbn [existsb]. rewrite orb_false_r, orb_true_iff.
    split.
    - intros [[stem ->]%endswith_stem|[stem ->]%endswith_stem]; exists stem; auto.
    - intros [stem [-> | ->]]; [left | right]; apply endswith_append. }
  split; [apply Htwo|]. split; [apply Htwo|]. split.
  - intros [Hv Hr]. apply vector_suffix_not_raster in Hv. congruence.
  - by intros ->.
Qed.

Lemma clip_suffix_tests_witness :
  (∃ stem, "C:/data/mask.geojson" = stem +:+ ".shp"
           ∨ "C:/data/mask.geojson" = stem +:+ ".geojson")
  ∧ endswith_any "C:/data/mask.geojson" [".shp"; ".geojson"] = true
  ∧ endswith_any "" [".shp"; ".geojson"; ".tif"; ".tiff"] = false.
Proof.
  pose proof (clip_suffix_tests "C:/data/mask.geojson") as (Hv & _).
  pose proof (clip_suffix_tests "") as (_ & _ & _ & Hempty).
  assert (Hstem : ∃ stem, "C:/data/mask.geojson" = stem +:+ ".shp"
                          ∨ "C:/data/mask.geojson" = stem +:+ ".geojson")
    by (exists "C:/data/mask"; right; reflexivity).
  split; [exact Hstem|]. split; [exact (proj2 Hv Hstem) | exact (Hempty eq_refl)].
Defined.

Lemma import_shapefile_outcomes_witness :
  "locked.shp" ≠ ""
  ∧ read_file sample_lib "locked.shp" = Raise (Exn OSError "Permission denied")
  ∧ ∃ r es,
      import_shapefile sample_lib "locked.shp" cities_window
      = (Ret r, log_calls es cities_window)
      ∧ es = [CallReadFile "locked.shp"; MsgCritical "Error" "Error reading the file."].
Proof.
  assert (Hne : "locked.shp" ≠ "") by discriminate.
  destruct (import_shapefile_outcomes sample_lib cities_window "locked.shp")
    as (r & es & Hrun & _ & _ & _ & Hraise & _).
  split; [exact Hne|]. split; [reflexivity|].
  exists r, es. split; [exact Hrun|].
  exact (Hraise (Exn OSError "Permission denied") Hne eq_refl).
Defined.

Lemma read_only_commands_witness :
  gdf (exec (show_attribute_table sample_lib) cities_window) = gdf cities_window
  ∧ figure (exec show_projection_info cities_window) = figure cities_window
  ∧ gdf (exec (label_features sample_lib "pop" true) cities_window) = gdf cities_window.
Proof.
  pose proof (read_only_commands sample_lib cities_window) as [Hdialogs Hlabel].
  destruct (Hdialogs (exec (show_attribute_table sample_lib) cities_window)
              (or_intror eq_refl)) as (Hg & _).
  destruct (Hdialogs (exec show_projection_info cities_window) (or_introl eq_refl))
    as (_ & _ & Hf & _).
  split; [exact Hg|]. split; [exact Hf|]. exact (proj1 (Hlabel "pop" true)).
Defined.
